(** * chora-store: a shallow embedding of the entity store, its conflict
    resolvers and its bidirectional sync, with the properties checked
    against them.

    Source files embedded here:
    - [src/chora_store/models.py]              (module [Models])
    - [src/chora_store/schema.py]              (module [Schema])
    - [src/chora_store/repository.py]          (module [Repository])
    - [src/chora_store/conflict.py]            (module [Conflict])
    - [src/chora_store/syncable_repository.py] (module [Sync])

    Conventions of the embedding.
    - Python [int] and SQLite [INTEGER] are [Z] (the 64-bit range of
      [INTEGER] is not represented); Python [str] and SQLite [TEXT] are
      [string].
    - A [datetime] is carried as its ISO-8601 text, the form in which the
      store persists it ([isoformat] / [fromisoformat] are the identity);
      SQLite orders the [changed_at] column as text, which is what
      [String.leb] does here.
    - JSON text is carried as the value it denotes ([json.dumps] followed by
      [json.loads] is the identity on the values of [pyval]; floats are not
      represented).
    - A Python [dict] is an association list without repeated keys, in
      insertion order; equality of dicts ignores the order, as in Python.
    - Every reading of [datetime.utcnow()] is an explicit argument.
    - An operation run inside [with self._connection()] returns the new
      database on success and the database it started from when it raises
      (commit / rollback).
    - [ChangeTracker] belongs to the package [chora_sync], which is not
      among the sources; module [Sync] models it from the spec, and says so
      at each of its definitions. *)

From Stdlib Require Import ZArith String Ascii List Bool Lia Sorted Permutation.
From Stdlib Require Import DecimalString DecimalZ DecimalPos DecimalFacts.
From stdpp Require Import gmap strings list sorting.

Set Warnings "-register-all".

Open Scope Z_scope.

(** ** Exceptions and the error monad *)

(** The two constraint kinds whose text [create] looks for in
    [str(sqlite3.IntegrityError)]. *)
Inductive constraint : Type :=
| UNIQUE
| CHECK.

Inductive exn : Type :=
| ValidationError (msg : string)
| IntegrityError (kind : constraint) (what : string)
| KeyError (key : string)
| TypeError (what : string).

Inductive result (A : Type) : Type :=
| Ok (a : A)
| Raise (e : exn).

Arguments Ok {A} a.
Arguments Raise {A} e.

Definition bind {A B : Type} (m : result A) (k : A -> result B) : result B :=
  match m with
  | Ok a => k a
  | Raise e => Raise e
  end.

Notation "'let*' x := m 'in' k" := (bind m (fun x => k))
  (at level 10, x name, m at level 100, k at level 200).

(** [str(e)] of an [IntegrityError], as the engine words it. *)
Definition constraint_text (c : constraint) : string :=
  match c with
  | UNIQUE => "UNIQUE constraint failed"
  | CHECK => "CHECK constraint failed"
  end.

Definition str_exn (e : exn) : string :=
  match e with
  | ValidationError msg => msg
  | IntegrityError c what => constraint_text c +:+ ": " +:+ what
  | KeyError k => "'" +:+ k +:+ "'"
  | TypeError what => what
  end.

(** ** Text helpers: Python formatting and the SQL scalar functions *)

Module Text.

(** Python [str(n)] / [f"{n}"] for an [int]. *)
Definition str (n : Z) : string := NilZero.string_of_int (Z.to_int n).

(** SQL [INSTR(X, ':')] and the like: 1-based position of the first
    occurrence of the character, 0 when there is none. *)
Fixpoint instr (s : string) (c : ascii) : nat :=
  match s with
  | EmptyString => 0%nat
  | String a s' =>
      if Ascii.eqb a c then 1%nat
      else match instr s' c with
           | O => 0%nat
           | S k => S (S k)
           end
  end.

(** SQL [SUBSTR(X, Y)] for [Y >= 1]: the suffix that starts at the [Y]-th
    character. *)
Fixpoint drop_chars (n : nat) (s : string) : string :=
  match n, s with
  | O, _ => s
  | S n', String _ s' => drop_chars n' s'
  | S _, EmptyString => EmptyString
  end.

Definition substr (s : string) (y : nat) : string := drop_chars (y - 1) s.

Definition is_space (c : ascii) : bool :=
  match c with
  | " "%char | "009"%char | "010"%char | "011"%char | "012"%char | "013"%char => true
  | _ => false
  end.

Fixpoint skip_spaces (s : string) : string :=
  match s with
  | String c s' => if is_space c then skip_spaces s' else s
  | EmptyString => EmptyString
  end.

(** The longest prefix of decimal digits. *)
Fixpoint digits_prefix (s : string) : Decimal.uint :=
  match s with
  | String "0" s' => Decimal.D0 (digits_prefix s')
  | String "1" s' => Decimal.D1 (digits_prefix s')
  | String "2" s' => Decimal.D2 (digits_prefix s')
  | String "3" s' => Decimal.D3 (digits_prefix s')
  | String "4" s' => Decimal.D4 (digits_prefix s')
  | String "5" s' => Decimal.D5 (digits_prefix s')
  | String "6" s' => Decimal.D6 (digits_prefix s')
  | String "7" s' => Decimal.D7 (digits_prefix s')
  | String "8" s' => Decimal.D8 (digits_prefix s')
  | String "9" s' => Decimal.D9 (digits_prefix s')
  | _ => Decimal.Nil
  end.

(** SQL [CAST(text AS INTEGER)]: leading white space is skipped, then the
    longest prefix that reads as an integer is taken and the rest ignored;
    0 when there is no such prefix. *)
Definition cast_integer (s : string) : Z :=
  match skip_spaces s with
  | String "-" r => - Z.of_uint (digits_prefix r)
  | String "+" r => Z.of_uint (digits_prefix r)
  | r => Z.of_uint (digits_prefix r)
  end.

Definition ascii_lower (c : ascii) : ascii :=
  let n := nat_of_ascii c in
  if (65 <=? n)%nat && (n <=? 90)%nat then ascii_of_nat (n + 32) else c.

(** SQL [text LIKE pattern] with the default settings: [%] matches any run
    of characters, [_] one character, ASCII letters without regard to
    case. *)
Fixpoint like (pattern text : string) : bool :=
  match pattern with
  | EmptyString =>
      match text with
      | EmptyString => true
      | _ => false
      end
  | String "%" p' =>
      (fix any (t : string) : bool :=
         like p' t ||
         match t with
         | EmptyString => false
         | String _ t' => any t'
         end) text
  | String "_" p' =>
      match text with
      | EmptyString => false
      | String _ t' => like p' t'
      end
  | String c p' =>
      match text with
      | EmptyString => false
      | String d t' => Ascii.eqb (ascii_lower c) (ascii_lower d) && like p' t'
      end
  end.

(** Python [s.startswith(prefix)]. *)
Definition startswith (s prefix : string) : bool := String.prefix prefix s.

(** Python [str.lower()] on ASCII text. *)
Fixpoint lower (s : string) : string :=
  match s with
  | EmptyString => EmptyString
  | String c s' => String (ascii_lower c) (lower s')
  end.

(** What [\s] matches among the ASCII characters: tab to carriage return,
    the four separators 28 to 31, and the space. *)
Definition is_py_space (c : ascii) : bool :=
  let n := nat_of_ascii c in
  ((9 <=? n)%nat && (n <=? 13)%nat) || ((28 <=? n)%nat && (n <=? 32)%nat).

(** [re.sub(r"[...]+", "-", s)] for a character class: every maximal run
    of characters of the class becomes one ["-"]. [in_run] tells that the
    character before was of the class. *)
Fixpoint sub_runs (in_class : ascii -> bool) (in_run : bool) (s : string) : string :=
  match s with
  | EmptyString => EmptyString
  | String c s' =>
      if in_class c then
        if in_run then sub_runs in_class true s'
        else String "-" (sub_runs in_class true s')
      else String c (sub_runs in_class false s')
  end.

(** [re.sub(r"[^...]", "", s)]: the characters outside the class go. *)
Fixpoint keep (in_class : ascii -> bool) (s : string) : string :=
  match s with
  | EmptyString => EmptyString
  | String c s' => if in_class c then String c (keep in_class s') else keep in_class s'
  end.

Definition is_hyphen (c : ascii) : bool := Ascii.eqb c "-".

(** The class [[a-z0-9-]]. *)
Definition is_slug_char (c : ascii) : bool :=
  let n := nat_of_ascii c in
  ((97 <=? n)%nat && (n <=? 122)%nat) || ((48 <=? n)%nat && (n <=? 57)%nat) || is_hyphen c.

(** [s.lstrip("-")] and [s.rstrip("-")]. *)
Fixpoint lstrip_hyphen (s : string) : string :=
  match s with
  | String c s' => if is_hyphen c then lstrip_hyphen s' else s
  | EmptyString => EmptyString
  end.

Fixpoint rstrip_hyphen (s : string) : string :=
  match s with
  | EmptyString => EmptyString
  | String c s' =>
      match rstrip_hyphen s' with
      | EmptyString => if is_hyphen c then EmptyString else String c EmptyString
      | r => String c r
      end
  end.

(** [s.strip("-")]. *)
Definition strip_hyphen (s : string) : string := rstrip_hyphen (lstrip_hyphen s).

(** [s[:n]] for [n >= 0]. *)
Fixpoint take_chars (n : nat) (s : string) : string :=
  match n, s with
  | S n', String c s' => String c (take_chars n' s')
  | _, _ => EmptyString
  end.

(** Python [repr] of a list of strings whose characters are printable
    ASCII without quotes and backslashes (type and status names):
    ["['a', 'b']"]. *)
Fixpoint repr_items (l : list string) : string :=
  match l with
  | [] => ""
  | [s] => "'" +:+ s +:+ "'"
  | s :: l' => "'" +:+ s +:+ "', " +:+ repr_items l'
  end.

Definition repr_list (l : list string) : string := "[" +:+ repr_items l +:+ "]".

End Text.

(** ** Python values *)

Module Py.

Inductive pyval : Type :=
| PNone
| PBool (b : bool)
| PInt (n : Z)
| PStr (s : string)
| PList (l : list pyval)
| PDict (d : list (string * pyval)).

(** A [dict] with string keys. *)
Definition pydict : Type := list (string * pyval).

(** [d.get(key)] as an option ([None] here is "key absent"). *)
Fixpoint lookup {A : Type} (d : list (string * A)) (key : string) : option A :=
  match d with
  | [] => None
  | (k, v) :: d' => if String.eqb k key then Some v else lookup d' key
  end.

(** [d.get(key)]: Python's [None] when the key is absent. *)
Definition get (d : pydict) (key : string) : pyval :=
  match lookup d key with
  | Some v => v
  | None => PNone
  end.

(** [d.get(key, default)]. *)
Definition get_default (d : pydict) (key : string) (default : pyval) : pyval :=
  match lookup d key with
  | Some v => v
  | None => default
  end.

(** [d[key] = v]: replaces the value in place, or appends a new item. *)
Fixpoint set {A : Type} (d : list (string * A)) (key : string) (v : A)
  : list (string * A) :=
  match d with
  | [] => [(key, v)]
  | (k, w) :: d' =>
      if String.eqb k key then (k, v) :: d' else (k, w) :: set d' key v
  end.

Definition keys {A : Type} (d : list (string * A)) : list string := map fst d.

Definition bool_int (b : bool) : Z := if b then 1 else 0.

(** Python [a == b] on JSON-shaped values. [bool] is a subclass of [int],
    so [True == 1]; lists compare item by item; dicts compare as CPython
    does: same length, and every key of the left one is in the right one
    with an equal value. *)
Fixpoint eq (a b : pyval) {struct a} : bool :=
  match a, b with
  | PNone, PNone => true
  | PBool x, PBool y => Bool.eqb x y
  | PBool x, PInt n => bool_int x =? n
  | PInt m, PBool y => m =? bool_int y
  | PInt m, PInt n => m =? n
  | PStr s, PStr t => String.eqb s t
  | PList l, PList m =>
      (fix items (l m : list pyval) : bool :=
         match l, m with
         | [], [] => true
         | x :: l', y :: m' => eq x y && items l' m'
         | _, _ => false
         end) l m
  | PDict d, PDict e =>
      (length d =? length e)%nat &&
      (fix entries (d : list (string * pyval)) : bool :=
         match d with
         | [] => true
         | (k, v) :: d' =>
             match lookup e k with
             | Some w => eq v w
             | None => false
             end && entries d'
         end) d
  | _, _ => false
  end.

(** [a == b] for two dicts. *)
Definition dict_eq (a b : pydict) : bool := eq (PDict a) (PDict b).

(** [v is None]. *)
Definition is_none (v : pyval) : bool :=
  match v with
  | PNone => true
  | _ => false
  end.

(** Python truth value of a JSON-shaped value: [None], [False], [0], the
    empty string, list and dict are false. *)
Definition truthy (v : pyval) : bool :=
  match v with
  | PNone => false
  | PBool b => b
  | PInt n => negb (n =? 0)
  | PStr s => match s with EmptyString => false | _ => true end
  | PList l => match l with [] => false | _ => true end
  | PDict d => match d with [] => false | _ => true end
  end.

(** [d.pop(key, default)]: the dict without the key. *)
Fixpoint remove {A : Type} (d : list (string * A)) (key : string) : list (string * A) :=
  match d with
  | [] => []
  | (k, v) :: d' => if String.eqb k key then d' else (k, v) :: remove d' key
  end.

(** [d.update(other)], and the [**other] that ends a dict display: the
    items of [other], in order, are set in [d]. *)
Definition update {A : Type} (d other : list (string * A)) : list (string * A) :=
  fold_left (fun acc item => set acc (fst item) (snd item)) other d.

(** [l[-n:]]: the last [n] items when [n > 0]; for [n <= 0] the start
    index [-n] counts from the front. *)
Definition slice_from_minus {A : Type} (n : Z) (l : list A) : list A :=
  if 0 <? n then drop (length l - Z.to_nat n) l else drop (Z.to_nat (- n)) l.

(** [l[:n]]: the first [n] items; a negative [n] leaves the last [-n]
    out. *)
Definition slice_to {A : Type} (n : Z) (l : list A) : list A :=
  if n <? 0 then take (length l - Z.to_nat (- n)) l else take (Z.to_nat n) l.

End Py.

(** ** models.py *)

Module Models.

(** A [datetime], carried as its ISO-8601 text. *)
Definition datetime : Type := string.

Record Entity : Type := mkEntity {
  id : string;
  type : string;
  status : string;
  data : Py.pydict;
  version : Z;
  created_at : datetime;
  updated_at : datetime
}.

Definition is_empty (s : string) : bool :=
  match s with
  | EmptyString => true
  | _ => false
  end.

(** [Entity.__post_init__]: what the constructor checks. *)
Definition post_init (e : Entity) : result Entity :=
  if is_empty (id e) then Raise (ValidationError "Entity ID is required")
  else if is_empty (type e) then Raise (ValidationError "Entity type is required")
  else if is_empty (status e) then Raise (ValidationError "Entity status is required")
  else if negb (Text.startswith (id e) (type e +:+ "-")) then
    Raise (ValidationError
             ("Entity ID '" +:+ id e +:+ "' must start with type '" +:+ type e +:+ "-'"))
  else Ok e.

(** [Entity(...)]: build, then [__post_init__]. *)
Definition Entity_init (id type status : string) (data : Py.pydict) (version : Z)
    (created_at updated_at : datetime) : result Entity :=
  post_init (mkEntity id type status data version created_at updated_at).

(** The keyword arguments of [copy]: [None] is "keyword not given". *)
Record Changes : Type := mkChanges {
  ch_id : option string;
  ch_type : option string;
  ch_status : option string;
  ch_data : option Py.pydict;
  ch_version : option Z;
  ch_created_at : option datetime;
  ch_updated_at : option datetime
}.

Definition no_changes : Changes := mkChanges None None None None None None None.

(** [changes.get(key, default)]. *)
Definition changed {A : Type} (c : option A) (default : A) : A :=
  match c with
  | Some v => v
  | None => default
  end.

(** [Entity.copy] with its keyword arguments; [now] is the reading of [datetime.utcnow()]
    that serves as the default of [updated_at]. *)
Definition copy (self : Entity) (changes : Changes) (now : datetime) : result Entity :=
  Entity_init
    (changed (ch_id changes) (id self))
    (changed (ch_type changes) (type self))
    (changed (ch_status changes) (status self))
    (changed (ch_data changes) (data self))
    (changed (ch_version changes) (version self))
    (changed (ch_created_at changes) (created_at self))
    (changed (ch_updated_at changes) now).

(** [Entity.to_dict]. *)
Definition to_dict (self : Entity) : Py.pydict :=
  [ ("id", Py.PStr (id self));
    ("type", Py.PStr (type self));
    ("status", Py.PStr (status self));
    ("data", Py.PDict (data self));
    ("version", Py.PInt (version self));
    ("created_at", Py.PStr (created_at self));
    ("updated_at", Py.PStr (updated_at self)) ].

(** [d[key]]. *)
Definition item (d : Py.pydict) (key : string) : result Py.pyval :=
  match Py.lookup d key with
  | Some v => Ok v
  | None => Raise (KeyError key)
  end.

(** The fields of [Entity] are typed in the embedding: a JSON value of
    another type raises [TypeError] where it is read. (Python would build
    the object and fail at the first use that needs the type.) *)
Definition as_str (field : string) (v : Py.pyval) : result string :=
  match v with
  | Py.PStr s => Ok s
  | _ => Raise (TypeError field)
  end.

Definition as_int (field : string) (v : Py.pyval) : result Z :=
  match v with
  | Py.PInt n => Ok n
  | _ => Raise (TypeError field)
  end.

Definition as_dict (field : string) (v : Py.pyval) : result Py.pydict :=
  match v with
  | Py.PDict d => Ok d
  | _ => Raise (TypeError field)
  end.

(** [datetime.fromisoformat(d[key]) if key in d else datetime.utcnow()]. *)
Definition timestamp_or_now (d : Py.pydict) (key : string) (now : datetime)
  : result datetime :=
  match Py.lookup d key with
  | Some v => as_str key v
  | None => Ok now
  end.

(** [Entity.from_dict]. *)
Definition from_dict (d : Py.pydict) (now : datetime) : result Entity :=
  let* i := item d "id" in
  let* i := as_str "id" i in
  let* t := item d "type" in
  let* t := as_str "type" t in
  let* s := item d "status" in
  let* s := as_str "status" s in
  let* dt := as_dict "data" (Py.get_default d "data" (Py.PDict [])) in
  let* v := as_int "version" (Py.get_default d "version" (Py.PInt 1)) in
  let* c := timestamp_or_now d "created_at" now in
  let* u := timestamp_or_now d "updated_at" now in
  Entity_init i t s dt v c u.

End Models.

(** ** schema.py *)

Module Schema.

Definition VALID_TYPES : list string :=
  ["feature"; "pattern"; "context"; "capability"; "learning"; "task"; "release"].

Definition VALID_STATUSES : list (string * list string) :=
  [ ("feature", ["planned"; "in_progress"; "complete"; "blocked"; "deprecated"]);
    ("pattern", ["proposed"; "adopted"; "deprecated"]);
    ("context", ["active"; "paused"; "completed"; "abandoned"]);
    ("capability", ["active"; "deprecated"]);
    ("learning", ["documented"; "mitigated"; "propagated"]);
    ("task", ["open"; "in_progress"; "complete"; "blocked"]);
    ("release", ["draft"; "published"; "deprecated"]) ].

(** [list(set(...))]: every status once; the order plays no role. *)
Definition ALL_VALID_STATUSES : list string :=
  nodup string_dec (concat (map snd VALID_STATUSES)).

(** SQL [x IN (...)]. *)
Definition sql_in (x : string) (l : list string) : bool :=
  existsb (String.eqb x) l.

(** The [CHECK] constraints of table [entities]. *)
Definition check_type (type : string) : bool := sql_in type VALID_TYPES.

Definition check_status (status : string) : bool := sql_in status ALL_VALID_STATUSES.

Definition check_id (id type : string) : bool := Text.like (type +:+ "-%") id.

End Schema.

(** ** repository.py *)

Module Repository.

Import Models.

(** The values of column [change_type]. *)
Inductive ChangeKind : Type :=
| Create
| Update
| Delete.

Definition change_type_text (k : ChangeKind) : string :=
  match k with
  | Create => "create"
  | Update => "update"
  | Delete => "delete"
  end.

(** A row of table [entity_versions]. [data_snapshot] is the JSON value
    of the stored text; [None] stands for [NULL] or the empty text. *)
Record VersionRow : Type := mkVersionRow {
  vr_id : string;
  vr_entity_id : string;
  vr_version : Z;
  vr_change_type : ChangeKind;
  vr_changed_at : datetime;
  vr_data_snapshot : option Py.pydict
}.

(** The database file: table [entities], keyed by its primary key [id]
    (a row has the columns of [Entity]), and table [entity_versions] in
    insertion order. *)
Record DB : Type := mkDB {
  entities : gmap string Entity;
  entity_versions : list VersionRow
}.

Definition empty_db : DB := mkDB ∅ [].

(** [f"{entity_id}:{version}"], the primary key of a version record. *)
Definition version_key (entity_id : string) (version : Z) : string :=
  entity_id +:+ ":" +:+ Text.str version.

(** [INSERT INTO entities]: the [CHECK] constraints, then the primary
    key. *)
Definition insert_entity (db : DB) (row : Entity) : result DB :=
  if negb (Schema.check_type (type row)) then
    Raise (IntegrityError CHECK "type")
  else if negb (Schema.check_status (status row)) then
    Raise (IntegrityError CHECK "status")
  else if negb (Schema.check_id (id row) (type row)) then
    Raise (IntegrityError CHECK "id LIKE type || '-%'")
  else
    match entities db !! id row with
    | Some _ => Raise (IntegrityError UNIQUE "entities.id")
    | None => Ok (mkDB (<[id row := row]> (entities db)) (entity_versions db))
    end.

(** [INSERT INTO entity_versions]: the primary key [id] must be new. *)
Definition insert_version (db : DB) (vr : VersionRow) : result DB :=
  if existsb (fun r => String.eqb (vr_id r) (vr_id vr)) (entity_versions db) then
    Raise (IntegrityError UNIQUE "entity_versions.id")
  else Ok (mkDB (entities db) (entity_versions db ++ [vr])).

(** [_row_to_entity]. *)
Definition _row_to_entity (row : Entity) : result Entity :=
  Entity_init (id row) (type row) (status row) (data row) (version row)
    (created_at row) (updated_at row).

(** [EntityRepository.read]. *)
Definition read (db : DB) (entity_id : string) : result (option Entity) :=
  match entities db !! entity_id with
  | None => Ok None
  | Some row =>
      let* e := _row_to_entity row in
      Ok (Some e)
  end.

(** The [except sqlite3.IntegrityError] clause of [create]. *)
Definition translate_integrity (entity : Entity) (e : exn) : exn :=
  match e with
  | IntegrityError UNIQUE _ =>
      ValidationError ("Entity '" +:+ id entity +:+ "' already exists")
  | IntegrityError CHECK _ =>
      ValidationError ("Entity violates schema constraints: " +:+ str_exn e)
  | _ => e
  end.

(** [EntityRepository.create]. [now_log] is the clock reading stored as
    [changed_at]; [now_copy] the one taken by [entity.copy(version=1)],
    which runs after the transaction has been committed. *)
Definition create (db : DB) (entity : Entity) (now_log now_copy : datetime)
  : result Entity * DB :=
  let row :=
    mkEntity (id entity) (type entity) (status entity) (data entity) 1
      (created_at entity) (updated_at entity) in
  let record :=
    mkVersionRow (version_key (id entity) 1) (id entity) 1 Create now_log
      (Some (to_dict entity)) in
  match (let* db1 := insert_entity db row in insert_version db1 record) with
  | Raise e => (Raise (translate_integrity entity e), db)
  | Ok db2 =>
      (copy entity (mkChanges None None None None (Some 1) None None) now_copy, db2)
  end.

(** [EntityRepository.update]. [now] is the reading of
    [datetime.utcnow()] at the head of the method. The [UPDATE] assigns
    [status], [data], [version] and [updated_at]; of the [CHECK]
    constraints only the one on [status] mentions an assigned column. *)
Definition update (db : DB) (entity : Entity) (now : datetime)
  : result Entity * DB :=
  let new_version := version entity + 1 in
  let matched :=
    match entities db !! id entity with
    | Some row => if version row =? version entity then Some row else None
    | None => None
    end in
  let body : result (Entity * DB) :=
    match matched with
    | None =>
        (* result.rowcount == 0 *)
        let* existing := read db (id entity) in
        match existing with
        | None =>
            Raise (ValidationError ("Entity '" +:+ id entity +:+ "' not found"))
        | Some existing =>
            Raise (ValidationError
                     ("Version conflict: expected " +:+ Text.str (version entity)
                      +:+ ", got " +:+ Text.str (version existing)))
        end
    | Some row =>
        if negb (Schema.check_status (status entity)) then
          Raise (IntegrityError CHECK "status")
        else
          let row' :=
            mkEntity (id row) (type row) (status entity) (data entity) new_version
              (created_at row) now in
          let db1 := mkDB (<[id entity := row']> (entities db)) (entity_versions db) in
          let* updated_entity :=
            copy entity
              (mkChanges None None None None (Some new_version) None (Some now)) now in
          let* db2 :=
            insert_version db1
              (mkVersionRow (version_key (id entity) new_version) (id entity)
                 new_version Update now (Some (to_dict updated_entity))) in
          Ok (updated_entity, db2)
    end in
  match body with
  | Ok (updated_entity, db2) => (Ok updated_entity, db2)
  | Raise e => (Raise e, db)
  end.

(** [EntityRepository.delete]. *)
Definition delete (db : DB) (entity_id : string) (now : datetime)
  : result bool * DB :=
  match entities db !! entity_id with
  | None => (Ok false, db)
  | Some row =>
      let version := version row in
      let entity_snapshot : Py.pydict :=
        [ ("id", Py.PStr (id row));
          ("type", Py.PStr (type row));
          ("status", Py.PStr (status row));
          ("data", Py.PDict (data row));
          ("version", Py.PInt version);
          ("created_at", Py.PStr (created_at row));
          ("updated_at", Py.PStr (updated_at row)) ] in
      match
        insert_version db
          (mkVersionRow (version_key entity_id (version + 1)) entity_id
             (version + 1) Delete now (Some entity_snapshot))
      with
      | Raise e => (Raise e, db)
      | Ok db1 =>
          (Ok true, mkDB (base.delete entity_id (entities db1)) (entity_versions db1))
      end
  end.

(** [CAST(SUBSTR(id, INSTR(id, ':') + 1) AS INTEGER)]. *)
Definition key_number (key : string) : Z :=
  Text.cast_integer (Text.substr key (Text.instr key ":" + 1)).

(** [ORDER BY changed_at]: text comparison. *)
Definition changed_le (a b : VersionRow) : Prop :=
  String.leb (vr_changed_at a) (vr_changed_at b) = true.

#[global] Instance changed_le_dec (a b : VersionRow) : Decision (changed_le a b).
Proof. unfold changed_le. apply _. Defined.

(** The [SELECT] of [get_changes_since]. SQL leaves the order of rows
    with equal [changed_at] open; a merge sort stands for the engine's
    sorter. *)
Definition select_changes (db : DB) (since_version : Z) : list VersionRow :=
  merge_sort changed_le
    (List.filter (fun r => since_version <? key_number (vr_id r)) (entity_versions db)).

(** The loop of [get_changes_since] over the selected rows. *)
Fixpoint collect_changes (rows : list VersionRow) (now : datetime)
  : result (list (Entity * ChangeKind)) :=
  match rows with
  | [] => Ok []
  | row :: rows' =>
      match vr_data_snapshot row with
      | None => collect_changes rows' now
      | Some snapshot =>
          let* entity := from_dict snapshot now in
          let* results := collect_changes rows' now in
          Ok ((entity, vr_change_type row) :: results)
      end
  end.

(** [EntityRepository.get_changes_since]. *)
Definition get_changes_since (db : DB) (since_version : Z) (now : datetime)
  : result (list (Entity * ChangeKind)) :=
  collect_changes (select_changes db since_version) now.

(** Python [if entity_type:] on an optional string argument: [None] and
    the empty string count as "not given". *)
Definition given (filter : option string) : option string :=
  match filter with
  | Some EmptyString => None
  | _ => filter
  end.

(** [AND column = ?], when the filter is given. *)
Definition matches_filter (filter : option string) (column : string) : bool :=
  match given filter with
  | Some s => String.eqb column s
  | None => true
  end.

(** [ORDER BY updated_at DESC]: text comparison, latest first. *)
Definition updated_ge (a b : Entity) : Prop :=
  String.leb (updated_at b) (updated_at a) = true.

#[global] Instance updated_ge_dec (a b : Entity) : Decision (updated_ge a b).
Proof. unfold updated_ge. apply _. Defined.





End Repository.

(** ** conflict.py *)

Module Conflict.

Import Models.

Inductive ConflictResolution : Type :=
| LOCAL_WINS
| REMOTE_WINS
| MERGED
| DEFERRED
| SKIPPED.

Record Conflict : Type := mkConflict {
  entity_id : string;
  entity_type : string;
  local_version : Z;
  remote_version : Z;
  local_data : Py.pydict;
  remote_data : Py.pydict;
  local_timestamp : string;
  remote_timestamp : string;
  local_site_id : string;
  remote_site_id : string
}.

Record ConflictResult : Type := mkConflictResult {
  conflict : Conflict;
  resolution : ConflictResolution;
  resolved_data : option Py.pydict;
  message : option string
}.

(** The operand of [remote_version <= local_entity.version]: an [int]
    (or a [bool], which Python orders as 0 and 1); any other JSON value
    makes the comparison raise [TypeError]. *)
Definition as_number (v : Py.pyval) : result Z :=
  match v with
  | Py.PInt n => Ok n
  | Py.PBool b => Ok (Py.bool_int b)
  | _ => Raise (TypeError "'<=' not supported")
  end.

(** [detect_conflict]. A [datetime] is always true in Python, so
    [local_entity.updated_at or local_entity.created_at] is
    [updated_at]. *)
Definition detect_conflict (entity_id : string) (local_entity : Entity)
    (remote_data : Py.pydict) (local_site_id remote_site_id remote_timestamp : string)
  : result (option Conflict) :=
  let local_data := to_dict local_entity in
  let* remote_version := as_number (Py.get_default remote_data "version" (Py.PInt 0)) in
  (* No conflict if same version or remote is older *)
  if remote_version <=? version local_entity then Ok None
  (* No conflict if data is identical *)
  else if Py.dict_eq local_data remote_data then Ok None
  else
    Ok (Some (mkConflict entity_id (type local_entity) (version local_entity)
                remote_version local_data remote_data (updated_at local_entity)
                remote_timestamp local_site_id remote_site_id)).

(** [MergeFieldsResolver]: its two attributes. *)
Record MergeFieldsResolver : Type := mkMergeFieldsResolver {
  default_priority : string;
  field_priorities : list (string * string)
}.

(** [set(local_data.keys()) | set(remote_data.keys())]. Python leaves
    the iteration order of a set open; this is one enumeration of it. *)
Definition all_keys (c : Conflict) : list string :=
  nodup string_dec (Py.keys (local_data c) ++ Py.keys (remote_data c)).

(** [self.field_priorities.get(key, self.default_priority)]. *)
Definition priority_of (self : MergeFieldsResolver) (key : string) : string :=
  match Py.lookup (field_priorities self) key with
  | Some p => p
  | None => default_priority self
  end.

(** The body of the loop of [MergeFieldsResolver.resolve], on the pair
    [(merged, merge_log)]. *)
Definition merge_key (self : MergeFieldsResolver) (c : Conflict)
    (state : Py.pydict * list string) (key : string) : Py.pydict * list string :=
  let '(merged, merge_log) := state in
  let local_val := Py.get (local_data c) key in
  let remote_val := Py.get (remote_data c) key in
  if Py.eq local_val remote_val then
    (Py.set merged key local_val, merge_log)
  else if Py.is_none local_val then
    (Py.set merged key remote_val, merge_log ++ [key +:+ ": added from remote"])
  else if Py.is_none remote_val then
    (Py.set merged key local_val, merge_log ++ [key +:+ ": kept from local"])
  else if String.eqb (priority_of self key) "local" then
    (Py.set merged key local_val, merge_log ++ [key +:+ ": local wins"])
  else
    (Py.set merged key remote_val, merge_log ++ [key +:+ ": remote wins"]).

(** ["; ".join(l)]. *)
Fixpoint join (sep : string) (l : list string) : string :=
  match l with
  | [] => ""
  | [s] => s
  | s :: l' => s +:+ sep +:+ join sep l'
  end.

(** [MergeFieldsResolver.resolve], with the loop run over the keys in
    the order [order]. *)
Definition resolve_in (self : MergeFieldsResolver) (c : Conflict) (order : list string)
  : ConflictResult :=
  let '(merged, merge_log) := fold_left (merge_key self c) order ([], []) in
  mkConflictResult c MERGED (Some merged)
    (Some (match merge_log with
           | [] => "No conflicts"
           | _ => join "; " merge_log
           end)).

(** [MergeFieldsResolver.resolve]. *)
Definition resolve (self : MergeFieldsResolver) (c : Conflict) : ConflictResult :=
  resolve_in self c (all_keys c).

(** [HigherVersionWinsResolver.resolve]. *)
Definition higher_version_wins (c : Conflict) : ConflictResult :=
  if remote_version c <=? local_version c then
    mkConflictResult c LOCAL_WINS (Some (local_data c))
      (Some ("Local version higher (" +:+ Text.str (local_version c) +:+ " >= "
             +:+ Text.str (remote_version c) +:+ ")"))
  else
    mkConflictResult c REMOTE_WINS (Some (remote_data c))
      (Some ("Remote version higher (" +:+ Text.str (remote_version c) +:+ " > "
             +:+ Text.str (local_version c) +:+ ")")).

(** [DeferResolver.resolve]. *)
Definition defer (c : Conflict) : ConflictResult :=
  mkConflictResult c DEFERRED None (Some "Conflict deferred for manual resolution").

(** [a == b] for two [Conflict] objects: the equality a dataclass
    generates, field by field. *)
Definition conflict_eq (a b : Conflict) : bool :=
  String.eqb (entity_id a) (entity_id b) &&
  String.eqb (entity_type a) (entity_type b) &&
  (local_version a =? local_version b) &&
  (remote_version a =? remote_version b) &&
  Py.dict_eq (local_data a) (local_data b) &&
  Py.dict_eq (remote_data a) (remote_data b) &&
  String.eqb (local_timestamp a) (local_timestamp b) &&
  String.eqb (remote_timestamp a) (remote_timestamp b) &&
  String.eqb (local_site_id a) (local_site_id b) &&
  String.eqb (remote_site_id a) (remote_site_id b).

(** [ConflictQueue]: its two lists. *)
Record ConflictQueue : Type := mkConflictQueue {
  _conflicts : list Conflict;
  _resolved : list ConflictResult
}.

(** [ConflictQueue()]. *)
Definition empty_queue : ConflictQueue := mkConflictQueue [] [].

(** [ConflictQueue.add]. *)
Definition add (self : ConflictQueue) (c : Conflict) : ConflictQueue :=
  mkConflictQueue (_conflicts self ++ [c]) (_resolved self).

(** [ConflictQueue.pending], [ConflictQueue.resolved] and [len(queue)]. *)
Definition pending (self : ConflictQueue) : list Conflict := _conflicts self.

Definition resolved (self : ConflictQueue) : list ConflictResult := _resolved self.

Definition len (self : ConflictQueue) : Z := Z.of_nat (length (_conflicts self)).

(** [l.remove(c)]: drops the first item equal to [c]; [None] stands for
    the [ValueError] Python raises when there is none. *)
Fixpoint list_remove (l : list Conflict) (c : Conflict) : option (list Conflict) :=
  match l with
  | [] => None
  | x :: l' =>
      if conflict_eq x c then Some l'
      else option_map (cons x) (list_remove l' c)
  end.

(** [ConflictQueue.resolve]: [None] is the [ValueError] of
    [self._conflicts.remove(conflict)], raised before anything is
    stored. *)
Definition queue_resolve (self : ConflictQueue) (c : Conflict)
    (resolution : ConflictResolution) (data : Py.pydict)
  : option (ConflictResult * ConflictQueue) :=
  let result := mkConflictResult c resolution (Some data) None in
  match list_remove (_conflicts self) c with
  | None => None
  | Some rest => Some (result, mkConflictQueue rest (_resolved self ++ [result]))
  end.

(** [ConflictQueue.clear]. *)
Definition clear (self : ConflictQueue) : ConflictQueue := mkConflictQueue [] [].

End Conflict.

(** ** syncable_repository.py *)

Module Sync.

Import Models.

(** [chora_sync.ChangeType], as [syncable_repository.py] uses it. *)
Inductive ChangeType : Type :=
| INSERT
| UPDATE
| DELETE.

(** [chora_sync.Change], with the attributes [syncable_repository.py]
    reads. [value] is the JSON value of the text, [None] for Python's
    [None]. *)
Record Change : Type := mkChange {
  entity_id : string;
  change_type : ChangeType;
  table_name : string;
  value : option Py.pyval;
  site_id : string;
  version : Z
}.

(** Modelled from the spec: [ChangeTracker] of the package [chora_sync],
    which is not part of the sources. The spec gives it as a site-scoped,
    append-only change ledger keyed by a monotonic counter, with one
    watermark per remote site. Here the counter of an entry is its
    position in [ledger] (from 1); an entry keeps the site and the
    version under which its author recorded it. *)
Record ChangeTracker : Type := mkChangeTracker {
  tracker_site : string;
  ledger : list Change;
  site_versions : gmap string Z
}.

(** Modelled from the spec: [ChangeTracker.get_current_version], the
    highest counter of the ledger. *)
Definition get_current_version (t : ChangeTracker) : Z :=
  Z.of_nat (length (ledger t)).

(** Modelled from the spec: [ChangeTracker.record_change], which appends
    a change authored at this site under the next counter. *)
Definition record_change (t : ChangeTracker) (entity_id : string)
    (change_type : ChangeType) (table_name : string) (value : option Py.pyval)
  : ChangeTracker :=
  mkChangeTracker (tracker_site t)
    (ledger t ++ [mkChange entity_id change_type table_name value (tracker_site t)
                    (get_current_version t + 1)])
    (site_versions t).

(** Modelled from the spec: [ChangeTracker.get_changes_since], the
    entries whose counter is greater than [version], in ledger order. *)
Definition get_changes_since (t : ChangeTracker) (version : Z) : list Change :=
  drop (Z.to_nat version) (ledger t).

(** Modelled from the spec: [ChangeTracker.get_site_version], the
    watermark kept for a remote site, 0 before the first sync. *)
Definition get_site_version (t : ChangeTracker) (remote_site_id : string) : Z :=
  default 0 (site_versions t !! remote_site_id).

(** Modelled from the spec: [ChangeTracker.update_site_version]. *)
Definition update_site_version (t : ChangeTracker) (remote_site_id : string)
    (version : Z) : ChangeTracker :=
  mkChangeTracker (tracker_site t) (ledger t)
    (<[remote_site_id := version]> (site_versions t)).

Definition same_change (a b : Change) : bool :=
  String.eqb (site_id a) (site_id b) && (version a =? version b).

(** Modelled from the spec: [ChangeTracker.apply_remote_change], true iff
    the change is newly recorded; a change already in the ledger (same
    author site and version) is left alone. *)
Definition apply_remote_change (t : ChangeTracker) (change : Change)
  : bool * ChangeTracker :=
  if existsb (same_change change) (ledger t) then (false, t)
  else (true, mkChangeTracker (tracker_site t) (ledger t ++ [change]) (site_versions t)).

(** [chora_sync.MergeResult], with the fields [sync_with] fills. *)
Record MergeResult : Type := mkMergeResult {
  changes_sent : Z;
  changes_received : Z;
  conflicts_resolved : Z;
  errors : list string
}.

(** A [SyncableRepository]: the wrapped repository, the site id and the
    tracker. *)
Record SyncableRepository : Type := mkSyncableRepository {
  repo : Repository.DB;
  site : string;
  tracker : ChangeTracker
}.

(** [SyncableRepository.create]. *)
Definition create (self : SyncableRepository) (entity : Entity)
    (now_log now_copy : datetime) : result Entity * SyncableRepository :=
  match Repository.create (repo self) entity now_log now_copy with
  | (Raise e, db) => (Raise e, mkSyncableRepository db (site self) (tracker self))
  | (Ok created, db) =>
      (Ok created,
       mkSyncableRepository db (site self)
         (record_change (tracker self) (id created) INSERT "entities"
            (Some (Py.PDict (to_dict created)))))
  end.

(** [SyncableRepository.update]. *)
Definition update (self : SyncableRepository) (entity : Entity) (now : datetime)
  : result Entity * SyncableRepository :=
  match Repository.update (repo self) entity now with
  | (Raise e, db) => (Raise e, mkSyncableRepository db (site self) (tracker self))
  | (Ok updated, db) =>
      (Ok updated,
       mkSyncableRepository db (site self)
         (record_change (tracker self) (id updated) UPDATE "entities"
            (Some (Py.PDict (to_dict updated)))))
  end.

(** [SyncableRepository.delete]. *)
Definition delete (self : SyncableRepository) (entity_id : string) (now : datetime)
  : result bool * SyncableRepository :=
  match Repository.read (repo self) entity_id with
  | Raise e => (Raise e, self)
  | Ok None => (Ok false, self)
  | Ok (Some entity) =>
      match Repository.delete (repo self) entity_id now with
      | (Raise e, db) => (Raise e, mkSyncableRepository db (site self) (tracker self))
      | (Ok false, db) => (Ok false, mkSyncableRepository db (site self) (tracker self))
      | (Ok true, db) =>
          (Ok true,
           mkSyncableRepository db (site self)
             (record_change (tracker self) entity_id DELETE "entities"
                (Some (Py.PDict (to_dict entity)))))
      end
  end.

(** [json.loads(change.value)] used as a dict: [d[...]] and [d.get] on a
    JSON value that is not an object raise. *)
Definition as_object (v : Py.pyval) : result Py.pydict :=
  match v with
  | Py.PDict d => Ok d
  | _ => Raise (TypeError "not a dict")
  end.

(** [try: ... except Exception: pass] around a repository call: the
    database is the one the call left. *)
Definition swallow {A : Type} (r : result A * Repository.DB) : Repository.DB := snd r.

(** [SyncableRepository._apply_entity_change]. Every clock reading of
    the repository calls it makes is [now]. *)
Definition _apply_entity_change (db : Repository.DB) (change : Change) (now : datetime)
  : result unit * Repository.DB :=
  if negb (String.eqb (table_name change) "entities") then (Ok tt, db)
  else
    match value change with
    | None => (Ok tt, db)
    | Some json =>
        match change_type change with
        | INSERT =>
            match (let* data := as_object json in
                   let* entity := from_dict data now in
                   let* existing := Repository.read db (id entity) in
                   Ok (entity, existing)) with
            | Raise e => (Raise e, db)
            | Ok (entity, None) => (Ok tt, swallow (Repository.create db entity now now))
            | Ok (entity, Some _) => (Ok tt, db)
            end
        | UPDATE =>
            match (let* data := as_object json in
                   let* entity := from_dict data now in
                   let* existing := Repository.read db (id entity) in
                   Ok (entity, existing)) with
            | Raise e => (Raise e, db)
            | Ok (entity, None) => (Ok tt, db)
            | Ok (entity, Some existing) =>
                if Models.version existing <? Models.version entity then
                  match copy entity
                          (mkChanges None None None None (Some (Models.version existing))
                             None None) now with
                  | Raise _ => (Ok tt, db)
                  | Ok updated => (Ok tt, swallow (Repository.update db updated now))
                  end
                else (Ok tt, db)
            end
        | DELETE =>
            match as_object json with
            | Raise e => (Raise e, db)
            | Ok data =>
                match Py.get_default data "id" (Py.PStr "") with
                | Py.PStr entity_id =>
                    match Repository.delete db entity_id now with
                    | (Raise e, db') => (Raise e, db')
                    | (Ok _, db') => (Ok tt, db')
                    end
                | Py.PList _ | Py.PDict _ => (Raise (TypeError "unsupported type"), db)
                | _ => (Ok tt, db)
                end
            end
        end
    end.

(** One turn of an apply loop of [sync_with] on the receiving side:
    [(repository, applied, errors)] before and after. [prefix] is the
    text put before the entity id in the error message. *)
Definition apply_change (prefix : string) (now : datetime)
    (state : SyncableRepository * Z * list string) (change : Change)
  : SyncableRepository * Z * list string :=
  let '(receiver, applied, errs) := state in
  match apply_remote_change (tracker receiver) change with
  | (false, t) => (mkSyncableRepository (repo receiver) (site receiver) t, applied, errs)
  | (true, t) =>
      match _apply_entity_change (repo receiver) change now with
      | (Ok _, db) => (mkSyncableRepository db (site receiver) t, applied + 1, errs)
      | (Raise e, db) =>
          (mkSyncableRepository db (site receiver) t, applied,
           errs ++ [prefix +:+ entity_id change +:+ ": " +:+ str_exn e])
      end
  end.

Definition apply_changes (prefix : string) (now : datetime) (receiver : SyncableRepository)
    (changes : list Change) : SyncableRepository * Z * list string :=
  fold_left (apply_change prefix now) changes (receiver, 0, []).

(** [[c for c in changes if c.site_id != other]]. *)
Definition not_from (other : string) (changes : list Change) : list Change :=
  List.filter (fun c => negb (String.eqb (site_id c) other)) changes.

(** What [sync_with] has computed and done when it reaches the comment
    "Update version bookkeeping": both batches read, both apply loops
    run, no watermark written yet. *)
Record Exchange : Type := mkExchange {
  x_local : SyncableRepository;
  x_remote : SyncableRepository;
  x_changes_to_send : list Change;
  x_remote_changes : list Change;
  x_local_version : Z;
  x_remote_version : Z;
  x_local_applied : Z;
  x_local_errors : list string;
  x_remote_applied : Z;
  x_remote_errors : list string
}.

(** [sync_with] up to, and without, the two [update_site_version]
    calls. *)
Definition exchange (self remote : SyncableRepository) (now : datetime) : Exchange :=
  let remote_site_id := site remote in
  let local_site_id := site self in
  (* Get changes to send to remote *)
  let last_remote_version := get_site_version (tracker self) remote_site_id in
  let changes_to_send :=
    not_from remote_site_id (get_changes_since (tracker self) last_remote_version) in
  let local_version := get_current_version (tracker self) in
  (* Get changes from remote *)
  let last_local_version_at_remote := get_site_version (tracker remote) local_site_id in
  let remote_changes :=
    not_from local_site_id
      (get_changes_since (tracker remote) last_local_version_at_remote) in
  let remote_version := get_current_version (tracker remote) in
  (* Apply remote changes locally *)
  let '(self1, local_applied, local_errors) :=
    apply_changes "Error applying remote change " now self remote_changes in
  (* Apply local changes to remote *)
  let '(remote1, remote_applied, remote_errors) :=
    apply_changes "Error applying local change " now remote changes_to_send in
  mkExchange self1 remote1 changes_to_send remote_changes local_version remote_version
    local_applied local_errors remote_applied remote_errors.

(** [SyncableRepository.sync_with]: the result, the local repository
    and the remote repository after the call. *)
Definition sync_with (self remote : SyncableRepository) (now : datetime)
  : MergeResult * SyncableRepository * SyncableRepository :=
  let x := exchange self remote now in
  (* Update version bookkeeping *)
  let self2 :=
    mkSyncableRepository (repo (x_local x)) (site (x_local x))
      (update_site_version (tracker (x_local x)) (site remote) (x_local_version x)) in
  let remote2 :=
    mkSyncableRepository (repo (x_remote x)) (site (x_remote x))
      (update_site_version (tracker (x_remote x)) (site self) (x_remote_version x)) in
  (mkMergeResult (Z.of_nat (length (x_changes_to_send x))) (x_local_applied x) 0
     (x_local_errors x ++ map (fun e => "Remote: " +:+ e) (x_remote_errors x)),
   self2, remote2).

End Sync.

(** ** observer.py *)

Module Observer.

Import Models.

Inductive ChangeType : Type :=
| CREATED
| UPDATED
| DELETED.

Definition change_type_eqb (a b : ChangeType) : bool :=
  match a, b with
  | CREATED, CREATED | UPDATED, UPDATED | DELETED, DELETED => true
  | _, _ => false
  end.

Record EntityEvent : Type := mkEntityEvent {
  entity_id : string;
  entity_type : string;
  change_type : ChangeType;
  timestamp : datetime;
  entity : option Entity;
  old_status : option string;
  new_status : option string
}.

(** A registered callback, as far as the observer can tell: it returns,
    or it lets an exception escape. What it does elsewhere is not
    represented. *)
Definition EventCallback : Type := EntityEvent -> result unit.

Record EntityObserver : Type := mkEntityObserver {
  _callbacks : list EventCallback;
  _event_log : list EntityEvent;
  _max_log_size : Z
}.

(** [EntityObserver()]. *)
Definition new_observer : EntityObserver := mkEntityObserver [] [] 1000.

(** [EntityObserver.on_change]. *)
Definition on_change (self : EntityObserver) (callback : EventCallback) : EntityObserver :=
  mkEntityObserver (_callbacks self ++ [callback]) (_event_log self) (_max_log_size self).

(** The loop over the callbacks in [emit]: the lines it prints. *)
Definition notify (callbacks : list EventCallback) (event : EntityEvent) : list string :=
  flat_map
    (fun callback =>
       match callback event with
       | Ok _ => []
       | Raise e => ["Warning: Event callback error: " +:+ str_exn e]
       end)
    callbacks.

(** [EntityObserver.emit]: the event, the observer afterwards and the
    lines printed. [now] is the reading of [datetime.utcnow()]. *)
Definition emit (self : EntityObserver) (change_type : ChangeType) (entity : Entity)
    (old_status : option string) (now : datetime)
  : EntityEvent * EntityObserver * list string :=
  let event :=
    mkEntityEvent (id entity) (type entity) change_type now
      (if change_type_eqb change_type DELETED then None else Some entity)
      old_status (Some (status entity)) in
  (* Log event *)
  let log := _event_log self ++ [event] in
  let log :=
    if _max_log_size self <? Z.of_nat (length log)
    then Py.slice_from_minus (_max_log_size self) log
    else log in
  (* Notify callbacks *)
  (event, mkEntityObserver (_callbacks self) log (_max_log_size self),
   notify (_callbacks self) event).

(** [EntityObserver.get_recent_events]. A member of an [Enum] is always
    true, so [if change_type:] asks whether the argument was given. *)
Definition get_recent_events (self : EntityObserver) (entity_type : option string)
    (change_type : option ChangeType) (limit : Z) : list EntityEvent :=
  let events := _event_log self in
  let events :=
    match Repository.given entity_type with
    | Some t => List.filter (fun e => String.eqb (Observer.entity_type e) t) events
    | None => events
    end in
  let events :=
    match change_type with
    | Some k => List.filter (fun e => change_type_eqb (Observer.change_type e) k) events
    | None => events
    end in
  Py.slice_to limit (rev events).

(** [EntityObserver.clear_log]. *)
Definition clear_log (self : EntityObserver) : EntityObserver :=
  mkEntityObserver (_callbacks self) [] (_max_log_size self).

End Observer.

(** ** factory.py *)

Module Factory.

Import Models.

(** The entry of one type in the kernel schema ([entity.yaml], read by
    [_load_schema]): [type_schema.get("statuses", [])] and
    [type_schema.get("additional_required", [])]. *)
Record TypeSchema : Type := mkTypeSchema {
  statuses : list string;
  additional_required : list string
}.

(** An [EntityFactory]: [schema] is [self.schema.get("types", {})]. *)
Record EntityFactory : Type := mkEntityFactory {
  schema : list (string * TypeSchema);
  repository : Repository.DB;
  observer : Observer.EntityObserver
}.

(** What a factory method raises: [InvalidEntityType], or one of the
    exceptions of the lower layers. *)
Inductive exception : Type :=
| InvalidEntityType (msg : string)
| Raised (e : exn).

Inductive outcome (A : Type) : Type :=
| Returned (a : A)
| Failed (e : exception).

Arguments Returned {A} a.
Arguments Failed {A} e.

(** [EntityFactory._slugify], for titles of ASCII characters. *)
Definition _slugify (title : string) : result string :=
  (* Lowercase *)
  let slug := Text.lower title in
  (* Replace spaces and underscores with hyphens *)
  let slug :=
    Text.sub_runs (fun c => Text.is_py_space c || Ascii.eqb c "_") false slug in
  (* Remove special characters (keep alphanumeric and hyphens) *)
  let slug := Text.keep Text.is_slug_char slug in
  (* Collapse multiple hyphens *)
  let slug := Text.sub_runs Text.is_hyphen false slug in
  (* Strip leading/trailing hyphens *)
  let slug := Text.strip_hyphen slug in
  (* Truncate *)
  let slug := Text.take_chars 50 slug in
  if is_empty slug then
    Raise (ValidationError
             ("Title '" +:+ title +:+ "' produces empty slug. "
              +:+ "Title must contain alphanumeric characters."))
  else Ok slug.

(** Step 4 of [create]: the status to use. *)
Definition determine_status (entity_type : string) (valid_statuses : list string)
    (status : option string) : result string :=
  match status with
  | None =>
      match valid_statuses with
      | first :: _ => Ok first
      | [] => Ok "active"
      end
  | Some s =>
      if existsb (String.eqb s) valid_statuses then Ok s
      else Raise (ValidationError
                    ("Invalid status '" +:+ s +:+ "' for " +:+ entity_type
                     +:+ ". Valid statuses: " +:+ Text.repr_list valid_statuses))
  end.

(** Step 6 of [create]: the first required field that the data lack or
    hold a false value for. *)
Fixpoint first_missing (required : list string) (data : Py.pydict) : option string :=
  match required with
  | [] => None
  | field :: required' =>
      match Py.lookup data field with
      | None => Some field
      | Some v => if Py.truthy v then first_missing required' data else Some field
      end
  end.

(** [EntityFactory.create]. The clock readings, in the order taken: [now]
    by the factory, [now_log] and [now_copy] by the repository, and
    [now_emit] by the observer. The result comes with the factory
    afterwards and the lines printed. *)
Definition create (self : EntityFactory) (entity_type title : string)
    (status : option string) (kwargs : Py.pydict)
    (now now_log now_copy now_emit : datetime)
  : outcome Entity * EntityFactory * list string :=
  (* 1. Validate type exists *)
  match Py.lookup (schema self) entity_type with
  | None =>
      (Failed (InvalidEntityType
                 ("Unknown entity type: '" +:+ entity_type +:+ "'. Valid types: "
                  +:+ Text.repr_list (Py.keys (schema self)))), self, [])
  | Some type_schema =>
      let prepared : result Entity :=
        (* 2. Generate semantic ID *)
        let* slug := _slugify title in
        let entity_id := entity_type +:+ "-" +:+ slug in
        (* 3. Validate ID doesn't already exist *)
        let* existing := Repository.read (repository self) entity_id in
        match existing with
        | Some _ => Raise (ValidationError ("Entity '" +:+ entity_id +:+ "' already exists"))
        | None =>
            (* 4. Determine status *)
            let* status := determine_status entity_type (statuses type_schema) status in
            (* 5. Build data dict *)
            let data :=
              Py.update
                [ ("name", Py.PStr title);
                  ("description", Py.get_default kwargs "description" (Py.PStr ""));
                  ("created", Py.PStr now);
                  ("updated", Py.PStr now) ]
                (Py.remove kwargs "description") in
            (* 6. Validate required fields *)
            match first_missing (additional_required type_schema) data with
            | Some field =>
                Raise (ValidationError
                         ("Missing required field '" +:+ field +:+ "' for " +:+ entity_type))
            | None =>
                (* 7. Create entity (valid by construction) *)
                Entity_init entity_id entity_type status data 1 now now
            end
        end in
      match prepared with
      | Raise e => (Failed (Raised e), self, [])
      | Ok entity =>
          (* 8. Persist via repository *)
          match Repository.create (repository self) entity now_log now_copy with
          | (Raise e, db) =>
              (Failed (Raised e), mkEntityFactory (schema self) db (observer self), [])
          | (Ok entity, db) =>
              (* 9. Emit stigmergic signal *)
              let '(_, obs, printed) :=
                Observer.emit (observer self) Observer.CREATED entity None now_emit in
              (Returned entity, mkEntityFactory (schema self) db obs, printed)
          end
      end
  end.

(** [EntityFactory.delete]. *)
Definition delete (self : EntityFactory) (entity_id : string) (now now_emit : datetime)
  : result bool * EntityFactory * list string :=
  (* 1. Read existing entity (for event) *)
  match Repository.read (repository self) entity_id with
  | Raise e => (Raise e, self, [])
  | Ok None => (Ok false, self, [])
  | Ok (Some entity) =>
      (* 2. Delete from repository *)
      match Repository.delete (repository self) entity_id now with
      | (Raise e, db) => (Raise e, mkEntityFactory (schema self) db (observer self), [])
      | (Ok false, db) => (Ok false, mkEntityFactory (schema self) db (observer self), [])
      | (Ok true, db) =>
          (* 3. Emit stigmergic signal *)
          let '(_, obs, printed) :=
            Observer.emit (observer self) Observer.DELETED entity None now_emit in
          (Ok true, mkEntityFactory (schema self) db obs, printed)
      end
  end.

(** [EntityFactory.get]. *)
Definition get (self : EntityFactory) (entity_id : string) : result (option Entity) :=
  Repository.read (repository self) entity_id.

(** [EntityFactory.get_valid_types]. *)
Definition get_valid_types (self : EntityFactory) : list string := Py.keys (schema self).

(** [EntityFactory.get_valid_statuses]. *)
Definition get_valid_statuses (self : EntityFactory) (entity_type : string)
  : outcome (list string) :=
  match Py.lookup (schema self) entity_type with
  | None => Failed (InvalidEntityType ("Unknown entity type: " +:+ entity_type))
  | Some type_schema => Returned (statuses type_schema)
  end.

End Factory.

(** ** Auxiliary definitions used to state the properties *)

(** The value the loop body of [MergeFieldsResolver.resolve] stores
    under [key]. *)
Definition merged_value (self : Conflict.MergeFieldsResolver) (c : Conflict.Conflict)
    (key : string) : Py.pyval :=
  let local_val := Py.get (Conflict.local_data c) key in
  let remote_val := Py.get (Conflict.remote_data c) key in
  if Py.eq local_val remote_val then local_val
  else if Py.is_none local_val then remote_val
  else if Py.is_none remote_val then local_val
  else if String.eqb (Conflict.priority_of self key) "local" then local_val
  else remote_val.

(** The sentence of the spec on differing values, taken literally: a
    key that both payloads carry with different values is settled by
    the priority in force for that key. *)
Definition differing_values_by_priority : Prop :=
  forall (self : Conflict.MergeFieldsResolver) (c : Conflict.Conflict) (key : string)
         (local_val remote_val : Py.pyval),
    Py.lookup (Conflict.local_data c) key = Some local_val ->
    Py.lookup (Conflict.remote_data c) key = Some remote_val ->
    Py.eq local_val remote_val = false ->
    exists merged,
      Conflict.resolved_data (Conflict.resolve self c) = Some merged /\
      Py.lookup merged key =
      Some (if String.eqb (Conflict.priority_of self key) "local"
            then local_val else remote_val).

(** ** Sample values *)

Definition sample_conflict (local remote : Py.pydict) : Conflict.Conflict :=
  Conflict.mkConflict "feature-login" "feature" 1 2 local remote
    "2024-01-01T10:00:00" "2024-01-01T11:00:00" "site-001" "site-002".

(** [FieldMerge(default_priority="remote", field_priorities={"status":"local"})]
    on local [{"name":"A","status":"S1"}] and remote
    [{"name":"B","status":"S2"}]. *)
Definition scenario_resolver : Conflict.MergeFieldsResolver :=
  Conflict.mkMergeFieldsResolver "remote" [("status", "local")].

Definition scenario_conflict : Conflict.Conflict :=
  sample_conflict
    [("name", Py.PStr "A"); ("status", Py.PStr "S1")]
    [("name", Py.PStr "B"); ("status", Py.PStr "S2")].

(** Local [{"a": None}] against remote [{"a": 1}], local priority. *)
Definition local_first : Conflict.MergeFieldsResolver :=
  Conflict.mkMergeFieldsResolver "local" [].

Definition none_conflict : Conflict.Conflict :=
  sample_conflict [("a", Py.PNone)] [("a", Py.PInt 1)].

(** The entity of [TestDetectConflict], and the same payload one version
    later. *)
Definition feature_123 : Models.Entity :=
  Models.mkEntity "feature-123" "feature" "active" [("name", Py.PStr "Test")] 1
    "2024-01-01T10:00:00" "2024-01-01T10:00:00".

Definition feature_123_at_2 : Py.pydict :=
  Py.set (Models.to_dict feature_123) "version" (Py.PInt 2).

(** ** The states of a store *)

(** The databases that [create], [update] and [delete] produce from the
    empty one, when they are handed [Entity] objects (values that have
    passed [__post_init__]). *)
Inductive reachable : Repository.DB -> Prop :=
| reach_empty : reachable Repository.empty_db
| reach_create (db : Repository.DB) (entity : Models.Entity)
    (now_log now_copy : Models.datetime) :
    reachable db ->
    Models.post_init entity = Ok entity ->
    reachable (snd (Repository.create db entity now_log now_copy))
| reach_update (db : Repository.DB) (entity : Models.Entity) (now : Models.datetime) :
    reachable db ->
    Models.post_init entity = Ok entity ->
    reachable (snd (Repository.update db entity now))
| reach_delete (db : Repository.DB) (entity_id : string) (now : Models.datetime) :
    reachable db ->
    reachable (snd (Repository.delete db entity_id now)).

(** What holds of every such database. *)
Record store_inv (db : Repository.DB) : Prop := mk_store_inv {
  inv_row_id :
    forall k row, Repository.entities db !! k = Some row -> Models.id row = k;
  inv_row_valid :
    forall k row, Repository.entities db !! k = Some row ->
                  Models.post_init row = Ok row;
  inv_row_version :
    forall k row, Repository.entities db !! k = Some row -> 1 <= Models.version row;
  inv_row_created :
    forall k row, Repository.entities db !! k = Some row ->
      exists r, In r (Repository.entity_versions db) /\
                Repository.vr_entity_id r = k /\ Repository.vr_version r = 1;
  inv_key :
    forall r, In r (Repository.entity_versions db) ->
      Repository.vr_id r =
      Repository.version_key (Repository.vr_entity_id r) (Repository.vr_version r);
  inv_live :
    forall r row, In r (Repository.entity_versions db) ->
      Repository.entities db !! Repository.vr_entity_id r = Some row ->
      Repository.vr_version r <= Models.version row;
  inv_created :
    forall r, In r (Repository.entity_versions db) ->
      exists r1, In r1 (Repository.entity_versions db) /\
                 Repository.vr_entity_id r1 = Repository.vr_entity_id r /\
                 Repository.vr_version r1 = 1;
  inv_snapshot :
    forall r, In r (Repository.entity_versions db) ->
      exists e, Repository.vr_data_snapshot r = Some (Models.to_dict e) /\
                Models.post_init e = Ok e
}.

(** A text without [':']. *)
Definition colon_free (s : string) : Prop := Text.instr s ":" = 0%nat.

(** A result of [get_changes_since] stands for a version record: the
    entity is the one the snapshot denotes, the kind is the record's. *)
Definition shows (r : Repository.VersionRow) (res : Models.Entity * Repository.ChangeKind)
  : Prop :=
  Repository.vr_data_snapshot r = Some (Models.to_dict (fst res)) /\
  Repository.vr_change_type r = snd res.

(** The two messages of [update]. *)
Definition not_found_message (entity_id : string) : string :=
  "Entity '" +:+ entity_id +:+ "' not found".

Definition version_conflict_message (expected got : Z) : string :=
  "Version conflict: expected " +:+ Text.str expected +:+ ", got " +:+ Text.str got.


(** ** The rows that [create], [update] and [delete] write *)

Section RepositoryTerms.

Import Models Repository.

Definition created_row (e : Entity) : Entity :=
  mkEntity (id e) (type e) (status e) (data e) 1 (created_at e) (updated_at e).

Definition create_record (e : Entity) (now_log : datetime) : VersionRow :=
  mkVersionRow (version_key (id e) 1) (id e) 1 Create now_log (Some (to_dict e)).

Definition updated_row (row e : Entity) (now : datetime) : Entity :=
  mkEntity (id row) (type row) (status e) (data e) (version e + 1) (created_at row) now.

Definition updated_entity (e : Entity) (now : datetime) : Entity :=
  mkEntity (id e) (type e) (status e) (data e) (version e + 1) (created_at e) now.

Definition update_record (e : Entity) (now : datetime) : VersionRow :=
  mkVersionRow (version_key (id e) (version e + 1)) (id e) (version e + 1) Update now
    (Some (to_dict (updated_entity e now))).

Definition delete_record (k : string) (row : Entity) (now : datetime) : VersionRow :=
  mkVersionRow (version_key k (version row + 1)) k (version row + 1) Delete now
    (Some [ ("id", Py.PStr (id row)); ("type", Py.PStr (type row));
            ("status", Py.PStr (status row)); ("data", Py.PDict (data row));
            ("version", Py.PInt (version row));
            ("created_at", Py.PStr (created_at row));
            ("updated_at", Py.PStr (updated_at row)) ]).

End RepositoryTerms.

(** ** Sample stores *)

Definition feature_a : Models.Entity :=
  Models.mkEntity "feature-a" "feature" "planned" [("name", Py.PStr "A")] 1
    "2024-01-01T09:00:00" "2024-01-01T09:00:00".

Definition feature_b : Models.Entity :=
  Models.mkEntity "feature-b" "feature" "planned" [("name", Py.PStr "B")] 1
    "2024-01-01T09:30:00" "2024-01-01T09:30:00".

(** [feature-a] created at 10:00. *)
Definition db_a : Repository.DB :=
  snd (Repository.create Repository.empty_db feature_a
         "2024-01-01T10:00:00" "2024-01-01T10:00:01").


(** [feature-a] as a caller holds it after a concurrent writer moved the
    row on: the version it observed was 0. *)
Definition feature_a_stale : Models.Entity :=
  Models.mkEntity "feature-a" "feature" "blocked" [("name", Py.PStr "A")] 0
    "2024-01-01T09:00:00" "2024-01-01T09:00:00".

(** An entity whose id has a [':'] in it. *)
Definition feature_a_b : Models.Entity :=
  Models.mkEntity "feature-a:b" "feature" "planned" [] 1
    "2024-01-01T09:00:00" "2024-01-01T09:00:00".

Definition db_colon : Repository.DB :=
  snd (Repository.create Repository.empty_db feature_a_b
         "2024-01-01T10:00:00" "2024-01-01T10:00:01").

(** ** Sample sites *)

(** A site with an empty store and an empty ledger. *)
Definition fresh_site (s : string) : Sync.SyncableRepository :=
  Sync.mkSyncableRepository Repository.empty_db s (Sync.mkChangeTracker s [] ∅).





(** Site 2 with one change in its ledger whose payload is not an entity:
    the id does not start with the type. *)
Definition stray_payload : Py.pyval :=
  Py.PDict [("id", Py.PStr "task-1"); ("type", Py.PStr "feature");
            ("status", Py.PStr "open")].

Definition site_2_stray : Sync.SyncableRepository :=
  Sync.mkSyncableRepository Repository.empty_db "site-002"
    (Sync.record_change (Sync.mkChangeTracker "site-002" [] ∅) "task-1" Sync.INSERT
       "entities" (Some stray_payload)).

(** ** The sentences of the spec on repeated sync, taken literally *)


(** When the application of a remote change failed on the local side
    (the local error list is not empty), the next [sync_with] offers a
    remote change again. *)
Definition failed_changes_are_retried : Prop :=
  forall (A B : Sync.SyncableRepository) (now now' : Models.datetime),
    let s1 := Sync.sync_with A B now in
    Sync.x_local_errors (Sync.exchange A B now) <> [] ->
    Sync.x_remote_changes (Sync.exchange (snd (fst s1)) (snd s1) now') <> [].


(** ** Character classes of a text *)

Fixpoint all_chars (p : ascii -> bool) (s : string) : bool :=
  match s with
  | EmptyString => true
  | String c s' => p c && all_chars p s'
  end.

Fixpoint any_char (p : ascii -> bool) (s : string) : bool :=
  match s with
  | EmptyString => false
  | String c s' => p c || any_char p s'
  end.

(** The class [[a-z0-9]]. *)
Definition is_alnum (c : ascii) : bool :=
  let n := nat_of_ascii c in
  ((97 <=? n)%nat && (n <=? 122)%nat) || ((48 <=? n)%nat && (n <=? 57)%nat).

(** An ASCII letter of either case, or a digit. *)
Definition is_letter_or_digit (c : ascii) : bool := is_alnum (Text.ascii_lower c).

(** No two hyphens in a row. *)
Fixpoint single_hyphens (s : string) : bool :=
  match s with
  | String a ((String b _) as s') =>
      negb (Text.is_hyphen a && Text.is_hyphen b) && single_hyphens s'
  | _ => true
  end.

Definition first_not_hyphen (s : string) : bool :=
  match s with
  | String c _ => negb (Text.is_hyphen c)
  | EmptyString => true
  end.

(** ** Terms of the factory and the observer *)

(** The message of [_slugify]. *)
Definition empty_slug_message (title : string) : string :=
  "Title '" +:+ title +:+ "' produces empty slug. "
  +:+ "Title must contain alphanumeric characters.".



(** The two filters of [get_recent_events]. *)
Definition event_passes (entity_type : option string) (kind : option Observer.ChangeType)
    (ev : Observer.EntityEvent) : bool :=
  Repository.matches_filter entity_type (Observer.entity_type ev) &&
  match kind with
  | Some k => Observer.change_type_eqb (Observer.change_type ev) k
  | None => true
  end.

(** ** Sample factories *)

(** A kernel schema with the type [feature], and a factory over the
    empty store with a fresh observer. *)
Definition feature_schema : Factory.TypeSchema :=
  Factory.mkTypeSchema ["planned"; "in_progress"; "complete"; "blocked"; "deprecated"] [].


(** The same factory over the store that holds [feature-a], and over
    that store after [feature-a] has been deleted. *)
Definition factory_a : Factory.EntityFactory :=
  Factory.mkEntityFactory [("feature", feature_schema)] db_a Observer.new_observer.




(** * Properties *)

(** ** Python dicts *)

Section DictFacts.

Context {A : Type}.
Implicit Types (d : list (string * A)) (k : string).

Lemma lookup_set_same d k (v : A) : Py.lookup (Py.set d k v) k = Some v.
Proof.
  induction d as [|[k' w] d IH]; simpl.
  - now rewrite String.eqb_refl.
  - destruct (String.eqb k' k) eqn:E; simpl; rewrite E; auto.
Qed.

Lemma lookup_set_other d k k' (v : A) :
  k <> k' -> Py.lookup (Py.set d k v) k' = Py.lookup d k'.
Proof.
  intros Hne. induction d as [|[k0 w] d IH]; simpl.
  - destruct (String.eqb k k') eqn:E; [apply String.eqb_eq in E; contradiction | reflexivity].
  - destruct (String.eqb k0 k) eqn:E; simpl.
    + apply String.eqb_eq in E. subst k0.
      destruct (String.eqb k k') eqn:E'; [apply String.eqb_eq in E'; contradiction | reflexivity].
    + destruct (String.eqb k0 k'); auto.
Qed.

Lemma lookup_in_keys d k (v : A) : Py.lookup d k = Some v -> In k (Py.keys d).
Proof.
  induction d as [|[k' w] d IH]; simpl; [discriminate|].
  destruct (String.eqb k' k) eqn:E.
  - apply String.eqb_eq in E. auto.
  - intros H. right. now apply IH.
Qed.

Lemma in_keys_lookup d k : In k (Py.keys d) -> exists v, Py.lookup d k = Some v.
Proof.
  induction d as [|[k' w] d IH]; simpl; [tauto|].
  intros [-> | H].
  - rewrite String.eqb_refl. eauto.
  - destruct (String.eqb k' k); eauto.
Qed.

Lemma lookup_none_not_in_keys d k : Py.lookup d k = None <-> ~ In k (Py.keys d).
Proof.
  split.
  - intros Hn Hin. apply in_keys_lookup in Hin as [v Hv]. congruence.
  - intros Hn. destruct (Py.lookup d k) eqn:E; [|reflexivity].
    exfalso. apply Hn. eapply lookup_in_keys; eauto.
Qed.

End DictFacts.

(** [v == None] holds for [None] alone. *)
Lemma eq_none_r (v : Py.pyval) : Py.eq v Py.PNone = true <-> v = Py.PNone.
Proof. destruct v; simpl; split; intros H; try discriminate; auto. Qed.

Lemma eq_none_l (v : Py.pyval) : Py.eq Py.PNone v = true <-> v = Py.PNone.
Proof. destruct v; simpl; split; intros H; try discriminate; auto. Qed.

Lemma is_none_spec (v : Py.pyval) : Py.is_none v = true <-> v = Py.PNone.
Proof. destruct v; simpl; split; intros H; try discriminate; auto. Qed.

(** ** conflict.py: the field merge *)

Section FieldMerge.

Import Conflict.

Variable self : MergeFieldsResolver.
Variable c : Conflict.


Lemma merge_key_merged (state : Py.pydict * list string) (key : string) :
  fst (merge_key self c state key) = Py.set (fst state) key (merged_value self c key).
Proof.
  destruct state as [merged merge_log]. unfold merge_key, merged_value. simpl.
  repeat match goal with |- context [if ?b then _ else _] => destruct b end; reflexivity.
Qed.

(** The loop, whatever the order in which it visits the keys: a visited
    key holds its merged value, any other key is untouched. *)
Lemma fold_merge_lookup (order : list string) (state : Py.pydict * list string)
    (key : string) :
  Py.lookup (fst (fold_left (merge_key self c) order state)) key =
  if in_dec string_dec key order then Some (merged_value self c key)
  else Py.lookup (fst state) key.
Proof.
  revert state. induction order as [|k order IH]; intros state; simpl; [reflexivity|].
  rewrite IH. destruct (in_dec string_dec key order) as [Hin|Hnin].
  - destruct (string_dec k key); reflexivity.
  - rewrite merge_key_merged. destruct (string_dec k key) as [->|Hne].
    + apply lookup_set_same.
    + now apply lookup_set_other.
Qed.

Lemma resolve_in_lookup (order : list string) (key : string) :
  exists merged,
    resolved_data (resolve_in self c order) = Some merged /\
    Py.lookup merged key =
    if in_dec string_dec key order then Some (merged_value self c key) else None.
Proof.
  unfold resolve_in.
  pose proof (fold_merge_lookup order ([], []) key) as H.
  destruct (fold_left (merge_key self c) order ([], [])) as [merged merge_log].
  exists merged. split; [reflexivity|]. exact H.
Qed.

Lemma in_all_keys (key : string) :
  In key (all_keys c) <->
  In key (Py.keys (local_data c)) \/ In key (Py.keys (remote_data c)).
Proof. unfold all_keys. rewrite nodup_In, in_app_iff. reflexivity. Qed.

Lemma resolve_lookup (key : string) :
  exists merged,
    resolved_data (resolve self c) = Some merged /\
    Py.lookup merged key =
    if in_dec string_dec key (all_keys c) then Some (merged_value self c key) else None.
Proof. apply resolve_in_lookup. Qed.

End FieldMerge.

Section FieldMergeClaims.

Import Conflict.

(** C8 (as amended). For every resolver, conflict and key, the merged
    payload of [MergeFieldsResolver.resolve] is decided key by key over
    the union of the keys of both payloads: a key that only one payload
    carries takes that payload's value; values that are equal ([==]) are
    taken as they are; values that differ, neither of them [None], are
    settled by the per-field override if there is one, else by the default
    priority (["local"] picks the local value, anything else the remote
    one). The spec's scenario yields [{"name":"B","status":"S1"}]. *)
Theorem field_merge_keywise (self : MergeFieldsResolver) (c : Conflict) (key : string) :
  (exists merged,
     resolved_data (resolve self c) = Some merged /\
     (* the keys of the result are the union of the keys *)
     (Py.lookup merged key <> None <->
      In key (Py.keys (local_data c)) \/ In key (Py.keys (remote_data c))) /\
     (* a key of one side only *)
     (forall v, Py.lookup (local_data c) key = Some v ->
                Py.lookup (remote_data c) key = None ->
                Py.lookup merged key = Some v) /\
     (forall v, Py.lookup (local_data c) key = None ->
                Py.lookup (remote_data c) key = Some v ->
                Py.lookup merged key = Some v) /\
     (* equal values *)
     (forall lv rv, Py.lookup (local_data c) key = Some lv ->
                    Py.lookup (remote_data c) key = Some rv ->
                    Py.eq lv rv = true ->
                    Py.lookup merged key = Some lv) /\
     (* differing values, none of them None *)
     (forall lv rv, Py.lookup (local_data c) key = Some lv ->
                    Py.lookup (remote_data c) key = Some rv ->
                    Py.eq lv rv = false -> lv <> Py.PNone -> rv <> Py.PNone ->
                    Py.lookup merged key =
                    Some (if String.eqb (priority_of self key) "local" then lv else rv)))
  /\
  (exists merged,
     resolved_data (resolve scenario_resolver scenario_conflict) = Some merged /\
     Py.dict_eq merged [("name", Py.PStr "B"); ("status", Py.PStr "S1")] = true).
Proof.
  split; [|eexists; split; reflexivity].
  destruct (resolve_lookup self c key) as (merged & Hres & Hlook).
  exists merged. split; [exact Hres|].
  repeat split.
  - intros Hsome. destruct (in_dec string_dec key (all_keys c)) as [Hin|Hnin].
    + now apply in_all_keys.
    + congruence.
  - intros Hin. apply in_all_keys in Hin.
    destruct (in_dec string_dec key (all_keys c)); [congruence | contradiction].
  - intros v Hl Hr. rewrite Hlook.
    destruct (in_dec string_dec key (all_keys c)) as [Hin|Hnin].
    + f_equal. unfold merged_value, Py.get. rewrite Hl, Hr.
      destruct (Py.eq v Py.PNone); [reflexivity|].
      destruct (Py.is_none v) eqn:E; [apply is_none_spec in E; now subst | reflexivity].
    + exfalso. apply Hnin, in_all_keys. left. eapply lookup_in_keys; eauto.
  - intros v Hl Hr. rewrite Hlook.
    destruct (in_dec string_dec key (all_keys c)) as [Hin|Hnin].
    + f_equal. unfold merged_value, Py.get. rewrite Hl, Hr.
      destruct (Py.eq Py.PNone v) eqn:E; [apply eq_none_l in E; now subst | reflexivity].
    + exfalso. apply Hnin, in_all_keys. right. eapply lookup_in_keys; eauto.
  - intros lv rv Hl Hr Heq. rewrite Hlook.
    destruct (in_dec string_dec key (all_keys c)) as [Hin|Hnin].
    + f_equal. unfold merged_value, Py.get. now rewrite Hl, Hr, Heq.
    + exfalso. apply Hnin, in_all_keys. left. eapply lookup_in_keys; eauto.
  - intros lv rv Hl Hr Hneq Hln Hrn. rewrite Hlook.
    destruct (in_dec string_dec key (all_keys c)) as [Hin|Hnin].
    + f_equal. unfold merged_value, Py.get. rewrite Hl, Hr, Hneq.
      destruct (Py.is_none lv) eqn:E1; [apply is_none_spec in E1; contradiction|].
      destruct (Py.is_none rv) eqn:E2; [apply is_none_spec in E2; contradiction|].
      reflexivity.
    + exfalso. apply Hnin, in_all_keys. left. eapply lookup_in_keys; eauto.
Qed.

(** C8, counterexample. Local [{"a": None}], remote [{"a": 1}], default
    priority ["local"], no override: the key is in both payloads with
    differing values, the priority in force picks the local value
    [None], and the merged payload holds the remote value 1. *)
Lemma field_merge_none_overrides_priority : ~ differing_values_by_priority.
Proof.
  intros H.
  destruct (H local_first none_conflict "a" Py.PNone (Py.PInt 1)
              eq_refl eq_refl eq_refl) as (merged & Hres & Hlook).
  vm_compute in Hres. inversion Hres; subst merged.
  vm_compute in Hlook. discriminate.
Qed.

(** C9. For every resolver, conflict and key: when one side has no
    value for the key, or has the value [None], and the other side has a
    value [v] other than [None], the merged payload holds [v] under that
    key, whatever the per-field overrides and the default priority
    are. *)
Theorem merge_none_is_absence (self : MergeFieldsResolver) (c : Conflict)
    (key : string) (v : Py.pyval) :
  v <> Py.PNone ->
  ((Py.lookup (local_data c) key = None \/ Py.lookup (local_data c) key = Some Py.PNone) /\
   Py.lookup (remote_data c) key = Some v)
  \/
  ((Py.lookup (remote_data c) key = None \/ Py.lookup (remote_data c) key = Some Py.PNone) /\
   Py.lookup (local_data c) key = Some v) ->
  exists merged,
    resolved_data (resolve self c) = Some merged /\
    Py.lookup merged key = Some v.
Proof.
  intros Hv Hsides.
  destruct (resolve_lookup self c key) as (merged & Hres & Hlook).
  exists merged. split; [exact Hres|]. rewrite Hlook.
  assert (Hin : In key (all_keys c)).
  { apply in_all_keys.
    destruct Hsides as [[_ H]|[_ H]]; [right|left]; eapply lookup_in_keys; eauto. }
  destruct (in_dec string_dec key (all_keys c)); [|contradiction].
  f_equal. unfold merged_value, Py.get.
  assert (Hnl : Py.eq Py.PNone v = false).
  { destruct (Py.eq Py.PNone v) eqn:E; [apply eq_none_l in E; contradiction | reflexivity]. }
  assert (Hnr : Py.eq v Py.PNone = false).
  { destruct (Py.eq v Py.PNone) eqn:E; [apply eq_none_r in E; contradiction | reflexivity]. }
  assert (Hnn : Py.is_none v = false).
  { destruct (Py.is_none v) eqn:E; [apply is_none_spec in E; contradiction | reflexivity]. }
  destruct Hsides as [[[Hl|Hl] Hr]|[[Hr|Hr] Hl]]; rewrite Hl, Hr; cbv zeta;
    rewrite ?Hnl, ?Hnr; cbn [Py.is_none]; rewrite ?Hnn; reflexivity.
Qed.

Lemma merge_none_is_absence_witness :
  exists merged,
    resolved_data (resolve local_first none_conflict) = Some merged /\
    Py.lookup merged "a" = Some (Py.PInt 1).
Proof.
  apply (merge_none_is_absence local_first none_conflict "a" (Py.PInt 1)).
  - discriminate.
  - left. split; [right; reflexivity | reflexivity].
Defined.

End FieldMergeClaims.

(** ** conflict.py: detection *)

Section DetectConflict.

Import Models Conflict.

(** The local payload carries the local version under ["version"], so it
    is never equal to a remote payload that claims another version. *)
Lemma dict_eq_version_differs (e : Entity) (remote : Py.pydict) (r : Z) :
  as_number (Py.get_default remote "version" (Py.PInt 0)) = Ok r ->
  r <> version e ->
  Py.dict_eq (to_dict e) remote = false.
Proof.
  intros Hr Hne. unfold Py.dict_eq, to_dict. cbn [Py.eq].
  assert (Hv : match Py.lookup remote "version" with
               | Some (Py.PBool y) => version e =? Py.bool_int y
               | Some (Py.PInt n) => version e =? n
               | _ => false
               end = false).
  { unfold Py.get_default in Hr.
    destruct (Py.lookup remote "version") as [[| b | n | s | l | d]|];
      simpl in Hr; try discriminate; try reflexivity;
      inversion Hr; subst; apply Z.eqb_neq; congruence. }
  rewrite Hv. cbn [andb]. now rewrite !andb_false_r.
Qed.

(** What [detect_conflict] computes: once the remote payload claims a
    newer version, a conflict is returned, whatever else the payloads
    hold; the comparison of the payloads never returns "identical". *)
Lemma detect_conflict_newer (entity_id : string) (e : Entity) (remote : Py.pydict)
    (ls rs ts : string) (r : Z) :
  as_number (Py.get_default remote "version" (Py.PInt 0)) = Ok r ->
  detect_conflict entity_id e remote ls rs ts =
  if r <=? version e then Ok None
  else Ok (Some (mkConflict entity_id (type e) (version e) r (to_dict e) remote
                   (updated_at e) ts ls rs)).
Proof.
  intros Hr. unfold detect_conflict. rewrite Hr. simpl.
  destruct (r <=? version e) eqn:E; [reflexivity|].
  rewrite (dict_eq_version_differs e remote r Hr); [reflexivity|].
  apply Z.leb_gt in E. lia.
Qed.

(** C2, at the failing input. The local entity [feature-123] at version
    1 and a remote payload that agrees with it on every key except
    ["version"], which is 2: the two sides hold the same data at
    different version numbers, and [detect_conflict] returns a
    conflict. *)
Theorem detect_conflict_flags_identical_data :
  (forall key, key <> "version" ->
     Py.lookup feature_123_at_2 key = Py.lookup (to_dict feature_123) key) /\
  Py.lookup feature_123_at_2 "version" = Some (Py.PInt 2) /\
  detect_conflict "feature-123" feature_123 feature_123_at_2 "site-001" "site-002"
    "2024-01-01T12:00:00Z" =
  Ok (Some (mkConflict "feature-123" "feature" 1 2 (to_dict feature_123)
              feature_123_at_2 "2024-01-01T10:00:00" "2024-01-01T12:00:00Z"
              "site-001" "site-002")).
Proof.
  repeat split.
  intros key Hne. unfold feature_123_at_2. apply lookup_set_other. congruence.
Qed.

End DetectConflict.

(** ** Text: decimal rendering, [CAST], and the keys of version records *)

Section TextFacts.

Lemma digits_prefix_uint (u : Decimal.uint) :
  Text.digits_prefix (NilEmpty.string_of_uint u) = u.
Proof. induction u; simpl; congruence. Qed.

Lemma cast_uint (u : Decimal.uint) :
  u <> Decimal.Nil ->
  Text.cast_integer (NilEmpty.string_of_uint u) = Z.of_uint u.
Proof.
  intros Hn. destruct u; [contradiction | ..]; unfold Text.cast_integer; simpl;
    now rewrite digits_prefix_uint.
Qed.

Lemma nilzero_nonnil (u : Decimal.uint) :
  u <> Decimal.Nil -> NilZero.string_of_uint u = NilEmpty.string_of_uint u.
Proof. intros H. destruct u; [contradiction | reflexivity ..]. Qed.

Lemma cast_integer_str (n : Z) : Text.cast_integer (Text.str n) = n.
Proof.
  unfold Text.str. destruct n as [|p|p]; [reflexivity| |].
  - simpl. rewrite nilzero_nonnil by apply Unsigned.to_uint_nonnil.
    rewrite cast_uint by apply Unsigned.to_uint_nonnil.
    exact (DecimalZ.of_to (Z.pos p)).
  - simpl. rewrite nilzero_nonnil by apply Unsigned.to_uint_nonnil.
    unfold Text.cast_integer. simpl. rewrite digits_prefix_uint.
    exact (DecimalZ.of_to (Z.neg p)).
Qed.

Lemma str_inj (m n : Z) : Text.str m = Text.str n -> m = n.
Proof. intros H. rewrite <- (cast_integer_str m), H. apply cast_integer_str. Qed.

Lemma colon_free_uint (u : Decimal.uint) : colon_free (NilEmpty.string_of_uint u).
Proof. unfold colon_free. induction u; simpl; try rewrite IHu; reflexivity. Qed.

Lemma colon_free_str (n : Z) : colon_free (Text.str n).
Proof.
  unfold Text.str, colon_free. destruct n as [|p|p]; [reflexivity| |]; simpl;
    rewrite nilzero_nonnil by apply Unsigned.to_uint_nonnil;
    now rewrite colon_free_uint.
Qed.

Lemma instr_app_colon (s rest : string) :
  colon_free s -> Text.instr (s +:+ ":" +:+ rest) ":" = S (String.length s).
Proof.
  unfold colon_free. induction s as [|a s IH]; simpl; [reflexivity|].
  destruct (Ascii.eqb a ":") eqn:E; [discriminate|].
  destruct (Text.instr s ":") eqn:E'; [|discriminate].
  intros _. now rewrite IH.
Qed.

Lemma drop_chars_app (s rest : string) :
  Text.drop_chars (String.length s) (s +:+ rest) = rest.
Proof. induction s; simpl; auto. Qed.

Lemma instr_app_any (s rest : string) : Text.instr (s +:+ ":" +:+ rest) ":" <> 0%nat.
Proof.
  induction s as [|a s IH]; simpl; [discriminate|].
  destruct (Ascii.eqb a ":"); [discriminate|].
  destruct (Text.instr (s +:+ ":" +:+ rest) ":"); [contradiction | discriminate].
Qed.

Lemma drop_chars_app_colon (s rest : string) :
  Text.drop_chars (S (String.length s)) (s +:+ ":" +:+ rest) = rest.
Proof. induction s as [|a s IH]; [reflexivity | exact IH]. Qed.

Lemma key_number_version_key (entity_id : string) (v : Z) :
  colon_free entity_id ->
  Repository.key_number (Repository.version_key entity_id v) = v.
Proof.
  intros Hc. unfold Repository.key_number, Repository.version_key.
  rewrite instr_app_colon by exact Hc. unfold Text.substr.
  replace (S (String.length entity_id) + 1 - 1)%nat with (S (String.length entity_id)) by lia.
  rewrite drop_chars_app_colon. apply cast_integer_str.
Qed.

Lemma app_colon_inj (s1 s2 d1 d2 : string) :
  colon_free d1 -> colon_free d2 ->
  s1 +:+ ":" +:+ d1 = s2 +:+ ":" +:+ d2 -> s1 = s2 /\ d1 = d2.
Proof.
  intros H1 H2. revert s2. induction s1 as [|a s1 IH]; intros [|b s2] Heq; simpl in Heq.
  - inversion Heq as [Hd]. change ("" +:+ d1) with d1 in Hd.
    change ("" +:+ d2) with d2 in Hd. auto.
  - inversion Heq as [[Hb Hd]]. change ("" +:+ d1) with d1 in Hd. subst d1.
    exfalso. apply (instr_app_any s2 d2). exact H1.
  - inversion Heq as [[Hb Hd]]. change ("" +:+ d2) with d2 in Hd. subst d2.
    exfalso. apply (instr_app_any s1 d1). exact H2.
  - inversion Heq; subst. destruct (IH s2) as [-> ->]; auto.
Qed.

Lemma version_key_inj (a b : string) (m n : Z) :
  Repository.version_key a m = Repository.version_key b n -> a = b /\ m = n.
Proof.
  intros H. apply app_colon_inj in H; try apply colon_free_str.
  destruct H as [-> H]. split; [reflexivity | now apply str_inj].
Qed.

End TextFacts.

(** ** models.py and repository.py: basic facts and the store invariant *)

Section ModelsFacts.

Import Models.

Lemma post_init_ok (e e' : Entity) : post_init e = Ok e' -> e' = e.
Proof.
  unfold post_init. intros H.
  repeat match type of H with
         | (if ?b then _ else _) = _ => destruct b; try discriminate
         end.
  now inversion H.
Qed.

Lemma post_init_raises (e : Entity) :
  (exists e', post_init e = Ok e') \/ (exists msg, post_init e = Raise (ValidationError msg)).
Proof.
  unfold post_init.
  repeat match goal with
         | |- context [if ?b then _ else _] => destruct b
         end; eauto.
Qed.

(** [__post_init__] looks at [id], [type] and [status] only. *)
Lemma post_init_fields (e e' : Entity) :
  post_init e = Ok e ->
  id e' = id e -> type e' = type e -> status e' = status e ->
  post_init e' = Ok e'.
Proof.
  unfold post_init. intros H Hi Ht Hs. rewrite Hi, Ht, Hs.
  repeat match type of H with
         | (if ?b then _ else _) = _ => destruct b; try discriminate
         end.
  reflexivity.
Qed.

Lemma Entity_init_eta (e : Entity) :
  Entity_init (id e) (type e) (status e) (data e) (version e) (created_at e)
    (updated_at e) = post_init e.
Proof. now destruct e. Qed.

Lemma from_dict_to_dict (e : Entity) (now : datetime) :
  from_dict (to_dict e) now = post_init e.
Proof. unfold from_dict, to_dict. simpl. apply Entity_init_eta. Qed.

Lemma to_dict_inj (e e' : Entity) : to_dict e = to_dict e' -> e = e'.
Proof. destruct e, e'. unfold to_dict. simpl. intros H. now inversion H. Qed.

End ModelsFacts.

Section RepositoryFacts.

Import Models Repository.

Lemma read_lookup (db : DB) (k : string) :
  store_inv db -> read db k = Ok (entities db !! k).
Proof.
  intros Hinv. unfold read. destruct (entities db !! k) as [row|] eqn:E; [|reflexivity].
  unfold _row_to_entity. rewrite Entity_init_eta.
  rewrite (inv_row_valid db Hinv k row E). reflexivity.
Qed.

Lemma insert_version_fresh (db : DB) (vr : VersionRow) :
  (forall r, In r (entity_versions db) -> vr_id r <> vr_id vr) ->
  insert_version db vr = Ok (mkDB (entities db) (entity_versions db ++ [vr])).
Proof.
  intros Hfresh. unfold insert_version.
  destruct (existsb _ _) eqn:E; [|reflexivity].
  apply existsb_exists in E as (r & Hin & Heq). apply String.eqb_eq in Heq.
  now apply Hfresh in Hin.
Qed.


(** The key of the next version record of a live entity is unused. *)
Lemma next_key_fresh (db : DB) (k : string) (row : Entity) :
  store_inv db -> entities db !! k = Some row ->
  forall r, In r (entity_versions db) -> vr_id r <> version_key k (version row + 1).
Proof.
  intros Hinv Hrow r Hin Heq.
  rewrite (inv_key db Hinv r Hin) in Heq.
  apply version_key_inj in Heq as [Hk Hv].
  rewrite <- Hk in Hrow.
  pose proof (inv_live db Hinv r row Hin Hrow). lia.
Qed.


Lemma existsb_key_false (db : DB) (key : string) :
  existsb (fun r => String.eqb (vr_id r) key) (entity_versions db) = false ->
  forall r, In r (entity_versions db) -> vr_id r <> key.
Proof.
  intros E r Hin Heq.
  assert (existsb (fun r0 => String.eqb (vr_id r0) key) (entity_versions db) = true).
  { apply existsb_exists. exists r. split; [exact Hin|]. now apply String.eqb_eq. }
  congruence.
Qed.

(** [create] either leaves the database as it was, or the id and the
    key of the first version record were unused and both rows are
    written. *)
Lemma create_db (db : DB) (e : Entity) (t1 t2 : datetime) :
  snd (create db e t1 t2) = db \/
  (entities db !! id e = None /\
   (forall r, In r (entity_versions db) -> vr_id r <> version_key (id e) 1) /\
   snd (create db e t1 t2) =
   mkDB (<[id e := created_row e]> (entities db))
        (entity_versions db ++ [create_record e t1])).
Proof.
  unfold create, insert_entity.
  destruct (negb (Schema.check_type _)); [now left|].
  destruct (negb (Schema.check_status _)); [now left|].
  destruct (negb (Schema.check_id _ _)); [now left|]. cbn [id type status].
  destruct (entities db !! id e) eqn:El; [now left|].
  cbn [bind]. unfold insert_version. cbn [entity_versions entities vr_id].
  destruct (existsb _ _) eqn:Ex; [now left|].
  right. split; [reflexivity|]. split; [|reflexivity].
  now apply existsb_key_false.
Qed.

Lemma create_success (db : DB) (e : Entity) (t1 t2 : datetime) :
  post_init e = Ok e ->
  Schema.check_type (type e) = true ->
  Schema.check_status (status e) = true ->
  Schema.check_id (id e) (type e) = true ->
  entities db !! id e = None ->
  (forall r, In r (entity_versions db) -> vr_id r <> version_key (id e) 1) ->
  create db e t1 t2 =
  (Ok (mkEntity (id e) (type e) (status e) (data e) 1 (created_at e) t2),
   mkDB (<[id e := created_row e]> (entities db))
        (entity_versions db ++ [create_record e t1])).
Proof.
  intros Hv Ht Hs Hi Hl Hfresh. unfold create, insert_entity. cbn [id type status].
  rewrite Ht, Hs, Hi, Hl. cbn [negb bind].
  rewrite insert_version_fresh by exact Hfresh.
  unfold copy. cbn [changed ch_id ch_type ch_status ch_data ch_version ch_created_at ch_updated_at].
  unfold Entity_init. erewrite post_init_fields; [reflexivity | exact Hv | reflexivity ..].
Qed.

Lemma copy_bump (e : Entity) (now now' : datetime) :
  post_init e = Ok e ->
  copy e (mkChanges None None None None (Some (version e + 1)) None (Some now)) now' =
  Ok (updated_entity e now).
Proof.
  intros Hv. unfold copy, Entity_init, updated_entity. cbn.
  erewrite post_init_fields; [reflexivity | exact Hv | reflexivity ..].
Qed.

Lemma update_db (db : DB) (e : Entity) (now : datetime) :
  post_init e = Ok e ->
  snd (update db e now) = db \/
  (exists row,
     entities db !! id e = Some row /\ version row = version e /\
     snd (update db e now) =
     mkDB (<[id e := updated_row row e now]> (entities db))
          (entity_versions db ++ [update_record e now])).
Proof.
  intros Hv. unfold update.
  destruct (entities db !! id e) as [row|] eqn:El.
  - destruct (version row =? version e) eqn:Ev.
    + apply Z.eqb_eq in Ev.
      destruct (negb (Schema.check_status (status e))); [now left|].
      rewrite copy_bump by exact Hv. cbn [bind].
      unfold insert_version. cbn [entity_versions entities vr_id].
      destruct (existsb _ _) eqn:Ex; [now left|].
      right. exists row. repeat split; assumption.
    + left. destruct (read db (id e)) as [[x|]|]; reflexivity.
  - left. destruct (read db (id e)) as [[x|]|]; reflexivity.
Qed.

Lemma delete_absent (db : DB) (k : string) (now : datetime) :
  entities db !! k = None -> delete db k now = (Ok false, db).
Proof. intros H. unfold delete. now rewrite H. Qed.

Lemma delete_db (db : DB) (k : string) (now : datetime) :
  snd (delete db k now) = db \/
  (exists row,
     entities db !! k = Some row /\
     snd (delete db k now) =
     mkDB (base.delete k (entities db)) (entity_versions db ++ [delete_record k row now])).
Proof.
  unfold delete. destruct (entities db !! k) as [row|] eqn:El; [|now left].
  unfold insert_version. cbn [entity_versions entities vr_id].
  destruct (existsb _ _) eqn:Ex; [now left|].
  right. exists row. split; reflexivity.
Qed.

Lemma delete_present (db : DB) (k : string) (row : Entity) (now : datetime) :
  store_inv db -> entities db !! k = Some row ->
  delete db k now =
  (Ok true,
   mkDB (base.delete k (entities db)) (entity_versions db ++ [delete_record k row now])).
Proof.
  intros Hinv Hrow. unfold delete. rewrite Hrow.
  rewrite insert_version_fresh; [reflexivity|].
  cbn [vr_id]. now apply next_key_fresh.
Qed.


Lemma post_init_mix (a b c : Entity) :
  post_init a = Ok a -> post_init b = Ok b ->
  id c = id a -> type c = type a -> status c = status b ->
  post_init c = Ok c.
Proof.
  unfold post_init. intros Ha Hb Hi Ht Hs. rewrite Hi, Ht, Hs.
  repeat match type of Ha with
         | (if ?x then _ else _) = _ => destruct x; try discriminate
         end.
  repeat match type of Hb with
         | (if ?x then _ else _) = _ => destruct x; try discriminate
         end.
  reflexivity.
Qed.

Lemma store_inv_empty : store_inv empty_db.
Proof.
  split; cbn; intros; try contradiction;
    match goal with H : _ !! _ = Some _ |- _ =>
      rewrite lookup_empty in H; discriminate end.
Qed.

Lemma store_inv_create (db : DB) (e : Entity) (t1 t2 : datetime) :
  store_inv db -> post_init e = Ok e -> store_inv (snd (create db e t1 t2)).
Proof.
  intros Hinv Hv.
  destruct (create_db db e t1 t2) as [-> | (Habs & Hfresh & ->)]; [exact Hinv|].
  assert (Hnone : forall r, In r (entity_versions db) -> vr_entity_id r <> id e).
  { intros r Hin Heq.
    destruct (inv_created db Hinv r Hin) as (r1 & Hin1 & Hid1 & Hv1).
    apply (Hfresh r1 Hin1). rewrite (inv_key db Hinv r1 Hin1). congruence. }
  split; cbn [entities entity_versions].
  - intros k row Hl. apply lookup_insert_Some in Hl as [[<- <-]|[_ Hl]];
      [reflexivity | eapply (inv_row_id db Hinv); eauto].
  - intros k row Hl. apply lookup_insert_Some in Hl as [[<- <-]|[_ Hl]].
    + eapply post_init_fields; [exact Hv | reflexivity ..].
    + eapply (inv_row_valid db Hinv); eauto.
  - intros k row Hl. apply lookup_insert_Some in Hl as [[<- <-]|[_ Hl]].
    + cbn. lia.
    + eapply (inv_row_version db Hinv); eauto.
  - intros k row Hl. apply lookup_insert_Some in Hl as [[<- <-]|[_ Hl]].
    + exists (create_record e t1). rewrite in_app_iff. cbn. auto.
    + destruct (inv_row_created db Hinv k row Hl) as (r & Hin & Hr).
      exists r. rewrite in_app_iff. auto.
  - intros r Hin. apply in_app_iff in Hin as [Hin|[<-|[]]].
    + now apply (inv_key db Hinv).
    + reflexivity.
  - intros r row Hin Hl. apply in_app_iff in Hin as [Hin|[<-|[]]].
    + apply lookup_insert_Some in Hl as [[Heq _]|[_ Hl]].
      * exfalso. now apply (Hnone r Hin).
      * eapply (inv_live db Hinv); eauto.
    + cbn in Hl. rewrite lookup_insert_eq in Hl. inversion Hl. cbn. lia.
  - intros r Hin. apply in_app_iff in Hin as [Hin|[<-|[]]].
    + destruct (inv_created db Hinv r Hin) as (r1 & Hin1 & Hr1).
      exists r1. rewrite in_app_iff. auto.
    + exists (create_record e t1). rewrite in_app_iff. cbn. auto.
  - intros r Hin. apply in_app_iff in Hin as [Hin|[<-|[]]].
    + now apply (inv_snapshot db Hinv).
    + exists e. cbn. auto.
Qed.

Lemma store_inv_update (db : DB) (e : Entity) (now : datetime) :
  store_inv db -> post_init e = Ok e -> store_inv (snd (update db e now)).
Proof.
  intros Hinv Hv.
  destruct (update_db db e now Hv) as [-> | (row0 & Hrow & Hver & ->)]; [exact Hinv|].
  split; cbn [entities entity_versions].
  - intros k row Hl. apply lookup_insert_Some in Hl as [[<- <-]|[_ Hl]].
    + cbn. eapply (inv_row_id db Hinv); eauto.
    + eapply (inv_row_id db Hinv); eauto.
  - intros k row Hl. apply lookup_insert_Some in Hl as [[<- <-]|[_ Hl]].
    + eapply (post_init_mix row0 e); [eapply (inv_row_valid db Hinv); eauto | exact Hv | reflexivity ..].
    + eapply (inv_row_valid db Hinv); eauto.
  - intros k row Hl. apply lookup_insert_Some in Hl as [[<- <-]|[_ Hl]].
    + cbn. pose proof (inv_row_version db Hinv _ _ Hrow). lia.
    + eapply (inv_row_version db Hinv); eauto.
  - intros k row Hl.
    assert (exists row', entities db !! k = Some row') as [row' Hl'].
    { apply lookup_insert_Some in Hl as [[<- _]|[_ Hl]]; eauto. }
    destruct (inv_row_created db Hinv k row' Hl') as (r & Hin & Hr).
    exists r. rewrite in_app_iff. auto.
  - intros r Hin. apply in_app_iff in Hin as [Hin|[<-|[]]].
    + now apply (inv_key db Hinv).
    + reflexivity.
  - intros r row Hin Hl. apply in_app_iff in Hin as [Hin|[<-|[]]].
    + apply lookup_insert_Some in Hl as [[Heq <-]|[_ Hl]].
      * rewrite Heq in Hrow. pose proof (inv_live db Hinv r row0 Hin Hrow). cbn. lia.
      * eapply (inv_live db Hinv); eauto.
    + cbn in Hl. rewrite lookup_insert_eq in Hl. inversion Hl. cbn. lia.
  - intros r Hin. apply in_app_iff in Hin as [Hin|[<-|[]]].
    + destruct (inv_created db Hinv r Hin) as (r1 & Hin1 & Hr1).
      exists r1. rewrite in_app_iff. auto.
    + destruct (inv_row_created db Hinv _ _ Hrow) as (r1 & Hin1 & Hr1).
      exists r1. rewrite in_app_iff. cbn. auto.
  - intros r Hin. apply in_app_iff in Hin as [Hin|[<-|[]]].
    + now apply (inv_snapshot db Hinv).
    + exists (updated_entity e now). cbn. split; [reflexivity|].
      eapply post_init_fields; [exact Hv | reflexivity ..].
Qed.

Lemma store_inv_delete (db : DB) (k : string) (now : datetime) :
  store_inv db -> store_inv (snd (delete db k now)).
Proof.
  intros Hinv.
  destruct (delete_db db k now) as [-> | (row0 & Hrow & ->)]; [exact Hinv|].
  split; cbn [entities entity_versions].
  - intros k' row Hl. apply lookup_delete_Some in Hl as [_ Hl]. eapply (inv_row_id db Hinv); eauto.
  - intros k' row Hl. apply lookup_delete_Some in Hl as [_ Hl]. eapply (inv_row_valid db Hinv); eauto.
  - intros k' row Hl. apply lookup_delete_Some in Hl as [_ Hl].
    eapply (inv_row_version db Hinv); eauto.
  - intros k' row Hl. apply lookup_delete_Some in Hl as [_ Hl].
    destruct (inv_row_created db Hinv k' row Hl) as (r & Hin & Hr).
    exists r. rewrite in_app_iff. auto.
  - intros r Hin. apply in_app_iff in Hin as [Hin|[<-|[]]].
    + now apply (inv_key db Hinv).
    + reflexivity.
  - intros r row Hin Hl. apply lookup_delete_Some in Hl as [Hne Hl].
    apply in_app_iff in Hin as [Hin|[<-|[]]].
    + eapply (inv_live db Hinv); eauto.
    + now cbn in Hne.
  - intros r Hin. apply in_app_iff in Hin as [Hin|[<-|[]]].
    + destruct (inv_created db Hinv r Hin) as (r1 & Hin1 & Hr1).
      exists r1. rewrite in_app_iff. auto.
    + destruct (inv_row_created db Hinv _ _ Hrow) as (r1 & Hin1 & Hr1).
      exists r1. rewrite in_app_iff. cbn. auto.
  - intros r Hin. apply in_app_iff in Hin as [Hin|[<-|[]]].
    + now apply (inv_snapshot db Hinv).
    + exists row0. cbn. split; [reflexivity|]. eapply (inv_row_valid db Hinv); eauto.
Qed.

Lemma reachable_inv (db : DB) : reachable db -> store_inv db.
Proof.
  induction 1.
  - apply store_inv_empty.
  - now apply store_inv_create.
  - now apply store_inv_update.
  - now apply store_inv_delete.
Qed.

End RepositoryFacts.

(** ** repository.py: update *)

Section UpdateClaims.

Import Models Repository.

Lemma append_inj_l (s a b : string) : s +:+ a = s +:+ b -> a = b.
Proof. induction s as [|c s IH]; intros H; [exact H | inversion H; auto]. Qed.

Lemma reachable_db_a : reachable db_a.
Proof. apply reach_create; [apply reach_empty | reflexivity]. Defined.


Lemma update_stale (db : DB) (entity row : Entity) (now : datetime) :
  store_inv db ->
  entities db !! id entity = Some row -> version row <> version entity ->
  update db entity now =
  (Raise (ValidationError (version_conflict_message (version entity) (version row))), db).
Proof.
  intros Hinv Hrow Hne. unfold update. rewrite Hrow.
  apply Z.eqb_neq in Hne. rewrite Hne.
  rewrite (read_lookup db (id entity) Hinv), Hrow. reflexivity.
Qed.

Lemma update_absent (db : DB) (entity : Entity) (now : datetime) :
  entities db !! id entity = None ->
  update db entity now =
  (Raise (ValidationError (not_found_message (id entity))), db).
Proof.
  intros Habs. unfold update, read. rewrite Habs. reflexivity.
Qed.

Lemma update_current (db : DB) (entity row : Entity) (now : datetime) :
  store_inv db -> post_init entity = Ok entity ->
  entities db !! id entity = Some row -> version entity = version row ->
  Schema.check_status (status entity) = true ->
  update db entity now =
  (Ok (updated_entity entity now),
   mkDB (<[id entity := updated_row row entity now]> (entities db))
        (entity_versions db ++ [update_record entity now])).
Proof.
  intros Hinv Hv Hrow Hver Hst. unfold update. rewrite Hrow.
  rewrite <- Hver, Z.eqb_refl, Hst. cbn [negb].
  rewrite copy_bump by exact Hv. cbn [bind].
  rewrite insert_version_fresh; [reflexivity|].
  cbn [entities entity_versions vr_id]. rewrite Hver.
  now apply next_key_fresh.
Qed.



(** C6. In every store reached through the repository, an [update] that
    matches no row fails: with the not-found error when no row has the
    id, with the version-conflict error when the row is at another
    version. Both are [ValidationError]; the caller tells them apart by
    the message, which for a conflict names the version that is
    stored. *)
Theorem update_zero_rows (db : DB) (entity : Entity) (now : datetime) :
  reachable db ->
  (entities db !! id entity = None ->
   update db entity now =
   (Raise (ValidationError (not_found_message (id entity))), db))
  /\
  (forall row,
     entities db !! id entity = Some row -> version row <> version entity ->
     update db entity now =
     (Raise (ValidationError
               (version_conflict_message (version entity) (version row))), db))
  /\
  (forall i expected got,
     not_found_message i <> version_conflict_message expected got)
  /\
  (forall expected got got',
     version_conflict_message expected got = version_conflict_message expected got' ->
     got = got').
Proof.
  intros Hreach. pose proof (reachable_inv db Hreach) as Hinv. repeat split.
  - apply update_absent.
  - intros row Hrow Hne. now apply update_stale.
  - intros i expected got H. unfold not_found_message, version_conflict_message in H.
    cbv [String.append] in H. discriminate.
  - intros expected got got' H. unfold version_conflict_message in H.
    apply append_inj_l in H. apply append_inj_l in H. apply append_inj_l in H.
    now apply str_inj.
Qed.

Lemma update_zero_rows_witness :
  update db_a feature_b "2024-01-02T08:00:00" =
  (Raise (ValidationError (not_found_message "feature-b")), db_a)
  /\
  update db_a feature_a_stale "2024-01-02T08:00:00" =
  (Raise (ValidationError (version_conflict_message 0 1)), db_a).
Proof.
  destruct (update_zero_rows db_a feature_b "2024-01-02T08:00:00" reachable_db_a)
    as (Hnone & _).
  destruct (update_zero_rows db_a feature_a_stale "2024-01-02T08:00:00" reachable_db_a)
    as (_ & Hstale & _).
  split.
  - apply Hnone. reflexivity.
  - apply (Hstale (created_row feature_a)); [reflexivity | discriminate].
Defined.

End UpdateClaims.

(** ** models.py and repository.py: copy and create *)

Section CopyClaims.

Import Models Repository.

Lemma copy_updated_at (e : Entity) (changes : Changes) (now : datetime) (e' : Entity) :
  ch_updated_at changes = None -> copy e changes now = Ok e' -> updated_at e' = now.
Proof.
  intros Hnone Hcopy. unfold copy, Entity_init in Hcopy. rewrite Hnone in Hcopy.
  apply post_init_ok in Hcopy. subst e'. reflexivity.
Qed.

Lemma copy_total (e : Entity) (changes : Changes) (now : datetime) :
  post_init e = Ok e ->
  ch_id changes = None -> ch_type changes = None -> ch_status changes = None ->
  exists e', copy e changes now = Ok e'.
Proof.
  intros Hv Hi Ht Hs. unfold copy, Entity_init. rewrite Hi, Ht, Hs. cbn [changed].
  eexists. eapply post_init_fields; [exact Hv | reflexivity ..].
Qed.

Lemma create_returns (db db' : DB) (entity created : Entity) (now_log now_copy : datetime) :
  post_init entity = Ok entity ->
  create db entity now_log now_copy = (Ok created, db') ->
  updated_at created = now_copy /\ version created = 1 /\
  read db' (id entity) = Ok (Some (created_row entity)).
Proof.
  intros Hv Hc. unfold create in Hc.
  destruct (bind (insert_entity db _) _) as [db2|err] eqn:Hins; [|discriminate].
  inversion Hc as [[Hcopy Hdb]]. subst db'.
  assert (Hu : updated_at created = now_copy).
  { eapply copy_updated_at; [|exact Hcopy]. reflexivity. }
  unfold copy, Entity_init in Hcopy. apply post_init_ok in Hcopy.
  split; [exact Hu|]. split; [now subst created|].
  unfold insert_entity in Hins. cbn [id type status] in Hins.
  destruct (negb (Schema.check_type _)); [discriminate Hins|].
  destruct (negb (Schema.check_status _)); [discriminate Hins|].
  destruct (negb (Schema.check_id _ _)); [discriminate Hins|].
  destruct (entities db !! id entity) eqn:El; [discriminate Hins|]. cbn [bind] in Hins.
  unfold insert_version in Hins. destruct (existsb _ _); [discriminate Hins|].
  inversion Hins; subst db2. unfold read. cbn [entities].
  rewrite lookup_insert_eq. unfold _row_to_entity. rewrite Entity_init_eta.
  pose proof (post_init_fields entity (created_row entity) Hv eq_refl eq_refl eq_refl) as Hrow.
  unfold created_row in Hrow |- *. now rewrite Hrow.
Qed.

(** C10. [copy] called without [updated_at] among its changes gives the
    copy the clock reading of the call as [updated_at], not the one of
    the entity copied (and it does return when the entity is an [Entity]
    object and the changes leave [id], [type] and [status] alone). So the
    entity [create] returns has [updated_at] equal to the time of that
    call, while the row it stored, which [read] returns, has the
    [updated_at] of the entity passed in; the two can differ. *)
Theorem copy_refreshes_updated_at :
  (forall (e : Entity) (changes : Changes) (now : datetime),
     ch_updated_at changes = None ->
     (forall e', copy e changes now = Ok e' -> updated_at e' = now) /\
     (post_init e = Ok e ->
      ch_id changes = None -> ch_type changes = None -> ch_status changes = None ->
      exists e', copy e changes now = Ok e' /\ updated_at e' = now))
  /\
  (forall (db db' : DB) (entity created : Entity) (now_log now_copy : datetime),
     post_init entity = Ok entity ->
     create db entity now_log now_copy = (Ok created, db') ->
     updated_at created = now_copy /\
     exists row, read db' (id entity) = Ok (Some row) /\
                 updated_at row = updated_at entity)
  /\
  (exists created db' row,
     create empty_db feature_a "2024-01-01T10:00:00" "2024-01-01T10:00:01" =
     (Ok created, db') /\
     read db' (id feature_a) = Ok (Some row) /\
     updated_at created = "2024-01-01T10:00:01" /\
     updated_at row = "2024-01-01T09:00:00" /\
     updated_at created <> updated_at row).
Proof.
  split; [|split].
  - intros e changes now Hnone. split.
    + intros e'. now apply copy_updated_at.
    + intros Hv Hi Ht Hs. destruct (copy_total e changes now Hv Hi Ht Hs) as [e' He'].
      exists e'. split; [exact He' | now apply (copy_updated_at e changes now)].
  - intros db db' entity created now_log now_copy Hv Hc.
    destruct (create_returns db db' entity created now_log now_copy Hv Hc)
      as (Hu & _ & Hread).
    split; [exact Hu|]. exists (created_row entity). split; [exact Hread | reflexivity].
  - do 3 eexists. repeat split; try reflexivity. cbn. discriminate.
Qed.

Lemma copy_refreshes_updated_at_witness :
  exists e',
    copy feature_a (mkChanges None None None None (Some 1) None None)
      "2024-01-01T10:00:01" = Ok e' /\
    updated_at e' = "2024-01-01T10:00:01".
Proof.
  apply (proj2 (proj1 copy_refreshes_updated_at feature_a
                  (mkChanges None None None None (Some 1) None None)
                  "2024-01-01T10:00:01" eq_refl));
    reflexivity.
Defined.

End CopyClaims.

(** ** repository.py: the change log *)

Section ChangesSince.

Import Models Repository.

#[local] Instance changed_le_total : Total changed_le.
Proof. intros a b. unfold changed_le. apply String.leb_total. Qed.


Lemma select_changes_perm (db : DB) (v : Z) :
  Permutation (select_changes db v)
    (List.filter (fun r => v <? key_number (vr_id r)) (entity_versions db)).
Proof. unfold select_changes. apply merge_sort_Permutation. Qed.

Lemma in_select_changes (db : DB) (v : Z) (r : VersionRow) :
  In r (select_changes db v) <-> In r (entity_versions db) /\ v < key_number (vr_id r).
Proof.
  split.
  - intros H. apply (Permutation_in _ (select_changes_perm db v)) in H.
    apply filter_In in H as [H1 H2]. split; [exact H1 | now apply Z.ltb_lt].
  - intros [H1 H2].
    apply (Permutation_in _ (Permutation_sym (select_changes_perm db v))).
    apply filter_In. split; [exact H1 | now apply Z.ltb_lt].
Qed.

Lemma collect_changes_shows (rows : list VersionRow) (now : datetime) :
  (forall r, In r rows ->
     exists e, vr_data_snapshot r = Some (to_dict e) /\ post_init e = Ok e) ->
  exists results, collect_changes rows now = Ok results /\ Forall2 shows rows results.
Proof.
  induction rows as [|r rows IH]; intros Hsnap.
  - exists []. split; [reflexivity | constructor].
  - destruct (Hsnap r (or_introl eq_refl)) as (e & Hs & Hv).
    destruct IH as (results & Hres & Hall); [intros r' Hin; apply Hsnap; now right|].
    exists ((e, vr_change_type r) :: results). split.
    + cbn [collect_changes]. rewrite Hs, from_dict_to_dict, Hv. cbn [bind].
      now rewrite Hres.
    + constructor; [split; [exact Hs | reflexivity] | exact Hall].
Qed.

Lemma get_changes_since_shows (db : DB) (v : Z) (now : datetime) :
  store_inv db ->
  exists results,
    get_changes_since db v now = Ok results /\
    Forall2 shows (select_changes db v) results.
Proof.
  intros Hinv. unfold get_changes_since. apply collect_changes_shows.
  intros r Hin. apply in_select_changes in Hin as [Hin _].
  now apply (inv_snapshot db Hinv).
Qed.



Lemma Forall2_shows_in (rows : list VersionRow) results (r : VersionRow) :
  Forall2 shows rows results -> In r rows ->
  exists res, In res results /\ shows r res.
Proof.
  induction 1 as [|r0 res0 rows results Hs Hall IH]; intros Hin; [contradiction|].
  destruct Hin as [->|Hin].
  - exists res0. split; [now left | exact Hs].
  - destruct (IH Hin) as (res & Hres & Hshow). exists res. split; [now right | exact Hshow].
Qed.





(** After the [delete] of a stored entity whose id has no [':'],
    [get_changes_since 0] shows the delete record with the row as it was,
    and [read] finds nothing. *)
Lemma delete_tracked (db : DB) (k : string) (row : Entity) (now now' : datetime) :
  reachable db -> entities db !! k = Some row -> colon_free k ->
  exists db' results,
    delete db k now = (Ok true, db') /\
    entity_versions db' = entity_versions db ++ [delete_record k row now] /\
    read db' k = Ok None /\
    get_changes_since db' 0 now' = Ok results /\
    In (row, Delete) results.
Proof.
  intros Hreach Hrow Hc. pose proof (reachable_inv db Hreach) as Hinv.
  pose proof (store_inv_delete db k now Hinv) as Hinv'.
  rewrite (delete_present db k row now Hinv Hrow) in Hinv'. cbn [snd] in Hinv'.
  destruct (get_changes_since_shows _ 0 now' Hinv') as (results & Hres & Hshow).
  eexists _, results. split; [apply delete_present; eassumption|].
  split; [reflexivity|]. split.
  - rewrite (read_lookup _ _ Hinv'). cbn [entities]. now rewrite lookup_delete_eq.
  - split; [exact Hres|].
    assert (Hin : In (delete_record k row now)
                    (select_changes
                       (mkDB (base.delete k (entities db))
                             (entity_versions db ++ [delete_record k row now])) 0)).
    { apply in_select_changes. cbn [entity_versions]. split.
      - apply in_app_iff. right. now left.
      - cbn [delete_record vr_id]. rewrite key_number_version_key by exact Hc.
        pose proof (inv_row_version db Hinv k row Hrow). lia. }
    destruct (Forall2_shows_in _ _ _ Hshow Hin) as ([e kind] & Hres_in & Hsnap & Hkind).
    cbn in Hsnap, Hkind. subst kind.
    assert (e = row) as ->; [|exact Hres_in].
    injection Hsnap as Hi Ht Hs Hd Hv Hcr Hu.
    destruct e, row; cbn in *; congruence.
Qed.

(** C7, at the failing input. [feature-a:b] is created and then
    deleted: [delete] returns true, the row is gone, the delete record
    (version 2, the row as it was) is in [entity_versions], and
    [get_changes_since 0] returns nothing, because the text after the
    first [':'] of the key ["feature-a:b:2"] is ["b:2"], which [CAST]
    reads as 0. *)
Theorem delete_of_colon_id_untracked :
  exists db',
    delete db_colon "feature-a:b" "2024-01-01T12:00:00" = (Ok true, db') /\
    read db' "feature-a:b" = Ok None /\
    In (delete_record "feature-a:b" (created_row feature_a_b) "2024-01-01T12:00:00")
       (entity_versions db') /\
    key_number (version_key "feature-a:b" 2) = 0 /\
    get_changes_since db' 0 "2024-01-02T00:00:00" = Ok [].
Proof.
  eexists. split; [reflexivity|]. split; [reflexivity|].
  split; [right; left; reflexivity|]. split; reflexivity.
Qed.

(** An id that was never stored: [delete] returns false and the
    database, change log included, is as it was. *)
Lemma delete_never_stored (db : DB) (k : string) (now : datetime) :
  entities db !! k = None -> delete db k now = (Ok false, db).
Proof. apply delete_absent. Qed.

End ChangesSince.

(** ** syncable_repository.py: sync_with *)

Section SyncFacts.

Import Sync.

Implicit Types (r : SyncableRepository) (c : Change).



(** What one turn of an apply loop does to the receiving tracker: the
    watermarks stay, the ledger stays or grows by the change. *)
Lemma apply_change_tracker prefix now r (n : Z) (errs : list string) c :
  let '(r', _, _) := apply_change prefix now (r, n, errs) c in
  site r' = site r /\
  site_versions (tracker r') = site_versions (tracker r) /\
  (ledger (tracker r') = ledger (tracker r) \/
   ledger (tracker r') = ledger (tracker r) ++ [c]).
Proof.
  unfold apply_change, apply_remote_change.
  destruct (existsb _ _); cbn [fst snd].
  - cbn. auto.
  - destruct (_apply_entity_change _ _ _) as [[u|e] db]; cbn; auto.
Qed.

Lemma apply_fold_tracker prefix now (changes : list Change) r (n : Z) (errs : list string) :
  let '(r', _, _) := fold_left (apply_change prefix now) changes (r, n, errs) in
  site r' = site r /\
  site_versions (tracker r') = site_versions (tracker r) /\
  exists new, ledger (tracker r') = ledger (tracker r) ++ new /\ incl new changes.
Proof.
  revert r n errs. induction changes as [|c changes IH]; intros r n errs.
  - cbn. repeat split. exists []. split; [now rewrite app_nil_r | apply incl_nil_l].
  - cbn [fold_left].
    pose proof (apply_change_tracker prefix now r n errs c) as Hstep.
    destruct (apply_change prefix now (r, n, errs) c) as [[r1 n1] errs1].
    destruct Hstep as (Hs & Hw & Hl).
    specialize (IH r1 n1 errs1).
    destruct (fold_left _ changes (r1, n1, errs1)) as [[r' n'] errs'].
    destruct IH as (Hs' & Hw' & new & Hl' & Hincl).
    split; [congruence|]. split; [congruence|].
    destruct Hl as [Hl|Hl]; rewrite Hl in Hl'.
    + exists new. split; [exact Hl' | now apply incl_tl].
    + exists (c :: new). split.
      * now rewrite <- app_assoc in Hl'.
      * intros x [<-|Hx]; [now left | right; now apply Hincl].
Qed.




Lemma changes_since_current (t : ChangeTracker) (new : list Change) (w : gmap string Z) :
  get_changes_since (mkChangeTracker (tracker_site t) (ledger t ++ new) w)
    (get_current_version t) = new.
Proof.
  unfold get_changes_since, get_current_version. cbn [ledger].
  rewrite Nat2Z.id. apply drop_app_length.
Qed.


Lemma site_version_updated (t : ChangeTracker) (s : string) (v : Z) :
  get_site_version (update_site_version t s v) s = v.
Proof. unfold get_site_version, update_site_version. cbn. now rewrite lookup_insert_eq. Qed.


(** The parts of [exchange]. *)
Lemma exchange_parts (A B : SyncableRepository) (now : Models.datetime) :
  let x := exchange A B now in
  let to_send :=
    not_from (site B)
      (get_changes_since (tracker A) (get_site_version (tracker A) (site B))) in
  let from_remote :=
    not_from (site A)
      (get_changes_since (tracker B) (get_site_version (tracker B) (site A))) in
  x_changes_to_send x = to_send /\
  x_remote_changes x = from_remote /\
  x_local_version x = get_current_version (tracker A) /\
  x_remote_version x = get_current_version (tracker B) /\
  (x_local x, x_local_applied x, x_local_errors x) =
  apply_changes "Error applying remote change " now A from_remote /\
  (x_remote x, x_remote_applied x, x_remote_errors x) =
  apply_changes "Error applying local change " now B to_send.
Proof.
  cbv zeta. unfold exchange.
  destruct (apply_changes "Error applying remote change " _ _ _) as [[a1 n1] e1].
  destruct (apply_changes "Error applying local change " _ _ _) as [[b1 n2] e2].
  cbn. repeat split.
Qed.

(** The apply loops of [sync_with] write no watermark; each ledger grows
    by changes taken from the batch it was offered. *)
Lemma exchange_trackers (A B : SyncableRepository) (now : Models.datetime) :
  let x := exchange A B now in
  site (x_local x) = site A /\
  site (x_remote x) = site B /\
  site_versions (tracker (x_local x)) = site_versions (tracker A) /\
  site_versions (tracker (x_remote x)) = site_versions (tracker B) /\
  (exists new, ledger (tracker (x_local x)) = ledger (tracker A) ++ new /\
               incl new (x_remote_changes x)) /\
  (exists new, ledger (tracker (x_remote x)) = ledger (tracker B) ++ new /\
               incl new (x_changes_to_send x)).
Proof.
  cbv zeta.
  destruct (exchange_parts A B now) as (Hs & Hr & _ & _ & Hl & Hrem).
  rewrite Hs, Hr. unfold apply_changes in Hl, Hrem.
  pose proof (apply_fold_tracker "Error applying remote change " now
                (not_from (site A)
                   (get_changes_since (tracker B) (get_site_version (tracker B) (site A))))
                A 0 []) as HA.
  rewrite <- Hl in HA.
  pose proof (apply_fold_tracker "Error applying local change " now
                (not_from (site B)
                   (get_changes_since (tracker A) (get_site_version (tracker A) (site B))))
                B 0 []) as HB.
  rewrite <- Hrem in HB.
  destruct HA as (HA1 & HA2 & HA3). destruct HB as (HB1 & HB2 & HB3).
  repeat split; assumption.
Qed.






(** C4 (as amended). In [sync_with], the two apply loops write no
    watermark; after both have run, each side's watermark for the other
    site is set to the version its own ledger had when the batches were
    read, whatever the error lists hold. Every change that was in a
    ledger before the call is then at or below the watermark: what a
    later sync reads after the watermark are only the changes recorded
    during this call. A change whose application failed is reported in
    [errors] and is not offered again. *)
Theorem watermarks_advance_unconditionally (A B : SyncableRepository)
    (now : Models.datetime) :
  let x := exchange A B now in
  let s := sync_with A B now in
  let A' := snd (fst s) in
  let B' := snd s in
  site_versions (tracker (x_local x)) = site_versions (tracker A) /\
  site_versions (tracker (x_remote x)) = site_versions (tracker B) /\
  get_site_version (tracker A') (site B) = get_current_version (tracker A) /\
  get_site_version (tracker B') (site A) = get_current_version (tracker B) /\
  errors (fst (fst s)) =
  x_local_errors x ++ map (fun e => "Remote: " +:+ e) (x_remote_errors x) /\
  (exists new,
     ledger (tracker A') = ledger (tracker A) ++ new /\
     get_changes_since (tracker A') (get_site_version (tracker A') (site B)) = new /\
     incl new (x_remote_changes x)) /\
  (exists new,
     ledger (tracker B') = ledger (tracker B) ++ new /\
     get_changes_since (tracker B') (get_site_version (tracker B') (site A)) = new /\
     incl new (x_changes_to_send x)).
Proof.
  cbv zeta. unfold sync_with. cbn [fst snd tracker errors].
  destruct (exchange_trackers A B now)
    as (_ & _ & HwA & HwB & (newA & HlA & HinA) & (newB & HlB & HinB)).
  destruct (exchange_parts A B now) as (_ & _ & Hlv & Hrv & _ & _).
  rewrite !site_version_updated.
  split; [exact HwA|]. split; [exact HwB|]. split; [exact Hlv|]. split; [exact Hrv|].
  split; [reflexivity|]. split.
  - exists newA. split; [exact HlA|]. split; [|exact HinA].
    unfold get_changes_since, update_site_version. cbn [ledger]. rewrite HlA, Hlv.
    unfold get_current_version. rewrite Nat2Z.id. apply drop_app_length.
  - exists newB. split; [exact HlB|]. split; [|exact HinB].
    unfold get_changes_since, update_site_version. cbn [ledger]. rewrite HlB, Hrv.
    unfold get_current_version. rewrite Nat2Z.id. apply drop_app_length.
Qed.

(** C4, counterexample. Site 2 offers a change whose payload is not an
    entity; applying it at site 1 fails and is reported in the error
    list. The watermark site 2 keeps for site 1 is advanced to 1, the
    counter of that change, and the next [sync_with] offers nothing. *)
Lemma failed_change_is_not_retried : ~ failed_changes_are_retried.
Proof.
  intros H.
  apply (H (fresh_site "site-001") site_2_stray
           "2024-01-03T00:00:00" "2024-01-03T01:00:00").
  - vm_compute. discriminate.
  - vm_compute. reflexivity.
Qed.

End SyncFacts.

(** ** Instances of the general statements *)

Section Instances.

Import Conflict.

Lemma field_merge_keywise_witness :
  exists merged,
    resolved_data (resolve scenario_resolver scenario_conflict) = Some merged /\
    Py.lookup merged "name" = Some (Py.PStr "B") /\
    Py.lookup merged "status" = Some (Py.PStr "S1").
Proof.
  destruct (field_merge_keywise scenario_resolver scenario_conflict "name")
    as [(merged & Hres & _ & _ & _ & _ & Hname) _].
  destruct (field_merge_keywise scenario_resolver scenario_conflict "status")
    as [(merged' & Hres' & _ & _ & _ & _ & Hstatus) _].
  rewrite Hres in Hres'. inversion Hres'; subst merged'.
  exists merged. split; [exact Hres|]. split.
  - apply (Hname (Py.PStr "A") (Py.PStr "B")); try reflexivity; discriminate.
  - apply (Hstatus (Py.PStr "S1") (Py.PStr "S2")); try reflexivity; discriminate.
Defined.

End Instances.

(** * Further properties of the code *)

(** ** models.py and schema.py: validation, serialisation *)

Section LikeFacts.

Lemma like_prefix (p tail : string) : Text.like (p +:+ "%") (p +:+ tail) = true.
Proof.
  induction p as [|c p IH].
  - change ("" +:+ "%") with "%"%string. change ("" +:+ tail) with tail.
    induction tail as [|a tail IHt]; [reflexivity|].
    cbn [Text.like] in *. now rewrite IHt, orb_true_r.
  - change (String c p +:+ "%") with (String c (p +:+ "%")).
    change (String c p +:+ tail) with (String c (p +:+ tail)).
    destruct c as [b0 b1 b2 b3 b4 b5 b6 b7].
    destruct b0, b1, b2, b3, b4, b5, b6, b7;
      cbn [Text.like]; rewrite ?Ascii.eqb_refl;
      first [ rewrite IH; reflexivity
            | destruct (p +:+ tail); rewrite IH, ?orb_true_r; reflexivity ].
Qed.

Lemma prefix_split (p s : string) :
  String.prefix p s = true -> exists tail, s = p +:+ tail.
Proof.
  revert s. induction p as [|c p IH]; intros s H.
  - exists s. reflexivity.
  - destruct s as [|d s]; [discriminate|]. cbn in H.
    destruct (ascii_dec c d) as [->|]; [|discriminate].
    destruct (IH s H) as [tail ->]. exists tail. reflexivity.
Qed.

Lemma append_assoc' (a b c : string) : (a +:+ b) +:+ c = a +:+ (b +:+ c).
Proof.
  induction a as [|x a IH]; [reflexivity|].
  change (String x ((a +:+ b) +:+ c) = String x (a +:+ (b +:+ c))). now f_equal.
Qed.

End LikeFacts.

Section ModelsExtras.

Import Models Repository.

Lemma post_init_startswith (e : Entity) :
  post_init e = Ok e -> Text.startswith (id e) (type e +:+ "-") = true.
Proof.
  unfold post_init. intros H.
  destruct (is_empty (id e)); [discriminate|].
  destruct (is_empty (type e)); [discriminate|].
  destruct (is_empty (status e)); [discriminate|].
  destruct (Text.startswith (id e) (type e +:+ "-")); [reflexivity | discriminate].
Qed.

Lemma post_init_check_id (e : Entity) :
  post_init e = Ok e -> Schema.check_id (id e) (type e) = true.
Proof.
  intros H. apply post_init_startswith in H. unfold Text.startswith in H.
  apply prefix_split in H as [tail Hid]. unfold Schema.check_id. rewrite Hid.
  replace (type e +:+ "-%") with ((type e +:+ "-") +:+ "%")
    by exact (append_assoc' (type e) "-" "%").
  apply like_prefix.
Qed.

(** X1. The constructor's rule on ids is at least as strict as the
    table's: an entity that [__post_init__] accepts satisfies
    [CHECK (id LIKE type || '-%')], so the [INSERT] of [create] never
    fails on that constraint, in whatever store. *)
Theorem entity_passes_id_check (e : Entity) :
  post_init e = Ok e ->
  Schema.check_id (id e) (type e) = true /\
  forall db, insert_entity db e <> Raise (IntegrityError CHECK "id LIKE type || '-%'").
Proof.
  intros H. pose proof (post_init_check_id e H) as Hid. split; [exact Hid|].
  intros db. unfold insert_entity. rewrite Hid.
  destruct (negb (Schema.check_type _)); [discriminate|].
  destruct (negb (Schema.check_status _)); [discriminate|]. cbn [negb].
  destruct (entities db !! id e); discriminate.
Qed.

Lemma entity_passes_id_check_witness :
  Schema.check_id "feature-a" "feature" = true /\
  forall db, insert_entity db feature_a <>
             Raise (IntegrityError CHECK "id LIKE type || '-%'").
Proof. apply (entity_passes_id_check feature_a). reflexivity. Defined.

(** X2. [to_dict] and [from_dict] are inverse on entities: [from_dict]
    gives back the entity [to_dict] was applied to, with no use of the
    clock, and two entities with the same dictionary are the same. *)
Theorem dict_round_trip (e : Entity) (now : datetime) :
  post_init e = Ok e ->
  from_dict (to_dict e) now = Ok e /\
  forall e', to_dict e' = to_dict e -> e' = e.
Proof.
  intros H. split; [now rewrite from_dict_to_dict|].
  intros e' Heq. now apply to_dict_inj.
Qed.

Lemma dict_round_trip_witness :
  from_dict (to_dict feature_a) "2024-02-01T00:00:00" = Ok feature_a /\
  forall e', to_dict e' = to_dict feature_a -> e' = feature_a.
Proof. apply (dict_round_trip feature_a). reflexivity. Defined.

End ModelsExtras.

(** ** repository.py: create, read, delete and the change log *)

Section RepositoryExtras.

Import Models Repository.

Lemma never_stored_key_fresh (db : DB) (k : string) :
  store_inv db ->
  (forall r, In r (entity_versions db) -> vr_entity_id r <> k) ->
  forall r, In r (entity_versions db) -> vr_id r <> version_key k 1.
Proof.
  intros Hinv Hnone r Hin Heq. rewrite (inv_key db Hinv r Hin) in Heq.
  apply version_key_inj in Heq as [Hk _]. now apply (Hnone r Hin).
Qed.

Lemma never_stored_absent (db : DB) (k : string) :
  store_inv db ->
  (forall r, In r (entity_versions db) -> vr_entity_id r <> k) ->
  entities db !! k = None.
Proof.
  intros Hinv Hnever. destruct (entities db !! k) as [row|] eqn:E; [|reflexivity].
  destruct (inv_row_created db Hinv k row E) as (r & Hin & Hid & _).
  now apply Hnever in Hin.
Qed.



(** X3. [create] of an entity whose id was never stored, with a type
    and a status the table admits: it returns; the returned entity and
    the stored row are at version 1, whatever version the entity passed
    in carries; [read] gives the row back; and one record, of kind
    create and version 1, is added to the change log. *)
Theorem create_then_read (db : DB) (entity : Entity) (now_log now_copy : datetime) :
  reachable db ->
  post_init entity = Ok entity ->
  Schema.check_type (type entity) = true ->
  Schema.check_status (status entity) = true ->
  (forall r, In r (entity_versions db) -> vr_entity_id r <> id entity) ->
  exists created db',
    create db entity now_log now_copy = (Ok created, db') /\
    version created = 1 /\
    read db' (id entity) =
    Ok (Some (mkEntity (id entity) (type entity) (status entity) (data entity) 1
                (created_at entity) (updated_at entity))) /\
    entity_versions db' =
    entity_versions db ++
    [mkVersionRow (version_key (id entity) 1) (id entity) 1 Create now_log
       (Some (to_dict entity))].
Proof.
  intros Hreach Hv Ht Hs Hnever. pose proof (reachable_inv db Hreach) as Hinv.
  pose proof (create_success db entity now_log now_copy Hv Ht Hs
                (post_init_check_id entity Hv)
                (never_stored_absent db (id entity) Hinv Hnever)
                (never_stored_key_fresh db (id entity) Hinv Hnever)) as Hc.
  do 2 eexists. split; [exact Hc|]. split; [reflexivity|]. split; [|reflexivity].
  eapply create_returns; [exact Hv | exact Hc].
Qed.

Lemma create_then_read_witness :
  exists created db',
    create db_a feature_b "2024-01-01T11:00:00" "2024-01-01T11:00:01" =
    (Ok created, db') /\
    version created = 1 /\
    read db' "feature-b" = Ok (Some feature_b) /\
    entity_versions db' =
    entity_versions db_a ++
    [mkVersionRow (version_key "feature-b" 1) "feature-b" 1 Create "2024-01-01T11:00:00"
       (Some (to_dict feature_b))].
Proof.
  apply (create_then_read db_a feature_b "2024-01-01T11:00:00" "2024-01-01T11:00:01"
           reachable_db_a eq_refl eq_refl eq_refl).
  intros r Hin. vm_compute in Hin. destruct Hin as [<-|[]]. discriminate.
Defined.



(** X5. The change log is append-only: each of [create], [update] and
    [delete], whatever it is given and whether it succeeds or fails,
    leaves [entity_versions] as it was or adds one record at its
    end. *)
Theorem log_append_only (db : DB) :
  (forall entity now_log now_copy,
     exists suffix,
       entity_versions (snd (create db entity now_log now_copy)) =
       entity_versions db ++ suffix /\ (length suffix <= 1)%nat) /\
  (forall entity now,
     exists suffix,
       entity_versions (snd (update db entity now)) =
       entity_versions db ++ suffix /\ (length suffix <= 1)%nat) /\
  (forall entity_id now,
     exists suffix,
       entity_versions (snd (delete db entity_id now)) =
       entity_versions db ++ suffix /\ (length suffix <= 1)%nat).
Proof.
  assert (Hsame : forall db0 : DB, exists suffix,
             entity_versions db0 = entity_versions db0 ++ suffix /\ (length suffix <= 1)%nat).
  { intros db0. exists []. rewrite app_nil_r. cbn. auto. }
  split; [|split].
  - intros entity now_log now_copy.
    destruct (create_db db entity now_log now_copy) as [-> | (_ & _ & ->)];
      [apply Hsame|].
    eexists [_]. cbn. auto.
  - intros entity now. unfold update.
    destruct (match entities db !! id entity with
              | Some row => if version row =? version entity then Some row else None
              | None => None
              end) as [row|].
    + destruct (negb (Schema.check_status (status entity))); [apply Hsame|].
      destruct (copy entity _ now) as [u|e]; [|apply Hsame]. cbn [bind].
      unfold insert_version. cbn [entity_versions entities vr_id].
      destruct (existsb _ _); [apply Hsame|]. cbn. eexists [_]. cbn. auto.
    + destruct (read db (id entity)) as [[x|]|]; apply Hsame.
  - intros entity_id now.
    destruct (delete_db db entity_id now) as [-> | (row & _ & ->)]; [apply Hsame|].
    eexists [_]. cbn. auto.
Qed.

(** X6. [delete] twice: the first call returns true and logs the
    deletion, with the row as it was and the next version number; the
    second returns false and writes nothing. *)
Theorem delete_twice (db : DB) (k : string) (row : Entity) (now now' : datetime) :
  reachable db -> entities db !! k = Some row ->
  exists db',
    delete db k now = (Ok true, db') /\
    entity_versions db' = entity_versions db ++ [delete_record k row now] /\
    delete db' k now' = (Ok false, db').
Proof.
  intros Hreach Hrow. pose proof (reachable_inv db Hreach) as Hinv.
  eexists. split; [apply delete_present; eassumption|]. split; [reflexivity|].
  apply delete_absent. cbn [entities]. apply lookup_delete_eq.
Qed.

Lemma delete_twice_witness :
  exists db',
    delete db_a "feature-a" "2024-01-03T00:00:00" = (Ok true, db') /\
    entity_versions db' =
    entity_versions db_a ++
    [delete_record "feature-a" (created_row feature_a) "2024-01-03T00:00:00"] /\
    delete db' "feature-a" "2024-01-03T00:00:01" = (Ok false, db').
Proof.
  apply (delete_twice db_a "feature-a" (created_row feature_a)
           "2024-01-03T00:00:00" "2024-01-03T00:00:01" reachable_db_a).
  reflexivity.
Defined.

(** X7. The entity [update] returns carries the stored version, so it
    can be handed to [update] again: two updates in a row, the second
    on the result of the first, both succeed and end at the supplied
    version plus 2; the row keeps its [created_at] and has the time of
    the second call as [updated_at]. *)
Theorem update_chain (db : DB) (entity row : Entity) (now now' : datetime) :
  reachable db ->
  post_init entity = Ok entity ->
  Schema.check_status (status entity) = true ->
  entities db !! id entity = Some row ->
  version entity = version row ->
  exists u1 db1 u2 db2,
    update db entity now = (Ok u1, db1) /\
    update db1 u1 now' = (Ok u2, db2) /\
    version u2 = version entity + 2 /\
    updated_at u2 = now' /\
    read db2 (id entity) =
    Ok (Some (mkEntity (id row) (type row) (status entity) (data entity)
                (version entity + 2) (created_at row) now')).
Proof.
  intros Hreach Hv Hs Hrow Hver. pose proof (reachable_inv db Hreach) as Hinv.
  pose proof (update_current db entity row now Hinv Hv Hrow Hver Hs) as H1.
  pose proof (store_inv_update db entity now Hinv Hv) as Hinv1.
  rewrite H1 in Hinv1. cbn [snd] in Hinv1.
  set (db1 := mkDB (<[id entity := updated_row row entity now]> (entities db))
                   (entity_versions db ++ [update_record entity now])) in *.
  assert (Hv1 : post_init (updated_entity entity now) = Ok (updated_entity entity now)).
  { eapply post_init_fields; [exact Hv | reflexivity ..]. }
  assert (Hrow1 : entities db1 !! id (updated_entity entity now) =
                  Some (updated_row row entity now)).
  { cbn. apply lookup_insert_eq. }
  pose proof (update_current db1 (updated_entity entity now) (updated_row row entity now)
                now' Hinv1 Hv1 Hrow1 eq_refl Hs) as H2.
  pose proof (store_inv_update db1 (updated_entity entity now) now' Hinv1 Hv1) as Hinv2.
  rewrite H2 in Hinv2. cbn [snd] in Hinv2.
  do 4 eexists. split; [exact H1|]. split; [exact H2|].
  split; [cbn; lia|]. split; [reflexivity|].
  rewrite (read_lookup _ _ Hinv2). cbn [entities id updated_entity].
  rewrite lookup_insert_eq. unfold updated_row. cbn. do 3 f_equal. lia.
Qed.

Lemma update_chain_witness :
  exists u1 db1 u2 db2,
    update db_a feature_a "2024-01-02T08:00:00" = (Ok u1, db1) /\
    update db1 u1 "2024-01-02T09:00:00" = (Ok u2, db2) /\
    version u2 = 1 + 2 /\
    updated_at u2 = "2024-01-02T09:00:00" /\
    read db2 "feature-a" =
    Ok (Some (mkEntity "feature-a" "feature" "planned" [("name", Py.PStr "A")] (1 + 2)
                "2024-01-01T09:00:00" "2024-01-02T09:00:00")).
Proof.
  apply (update_chain db_a feature_a (created_row feature_a)
           "2024-01-02T08:00:00" "2024-01-02T09:00:00" reachable_db_a);
    reflexivity.
Defined.

End RepositoryExtras.

(** ** conflict.py: detection, the resolvers and the queue *)

Section ConflictExtras.

Import Models Conflict.

(** X8. [detect_conflict] is decided by the version numbers alone:
    [TypeError] when the remote payload's ["version"] is no number
    (0 when the key is missing); no conflict when it is at most the
    local version; a conflict in every other case. The comparison of
    the two payloads never finds them identical, because the local one
    carries the local version. *)
Theorem detect_conflict_by_version_alone (entity_id : string) (e : Entity)
    (remote : Py.pydict) (ls rs ts : string) :
  detect_conflict entity_id e remote ls rs ts =
  match as_number (Py.get_default remote "version" (Py.PInt 0)) with
  | Raise err => Raise err
  | Ok r =>
      if r <=? version e then Ok None
      else Ok (Some (mkConflict entity_id (type e) (version e) r (to_dict e) remote
                       (updated_at e) ts ls rs))
  end.
Proof.
  destruct (as_number (Py.get_default remote "version" (Py.PInt 0))) as [r|err] eqn:E.
  - now apply detect_conflict_newer.
  - unfold detect_conflict. now rewrite E.
Qed.

(** X9. Detection followed by [HigherVersionWinsResolver]: every
    conflict [detect_conflict] returns is resolved in favour of the
    remote payload; the local side never wins a detected conflict. *)
Theorem detected_conflict_remote_wins (entity_id : string) (e : Entity)
    (remote : Py.pydict) (ls rs ts : string) (c : Conflict) :
  detect_conflict entity_id e remote ls rs ts = Ok (Some c) ->
  resolution (higher_version_wins c) = REMOTE_WINS /\
  resolved_data (higher_version_wins c) = Some remote.
Proof.
  destruct (as_number (Py.get_default remote "version" (Py.PInt 0))) as [r|err] eqn:E.
  - rewrite (detect_conflict_newer entity_id e remote ls rs ts r E).
    destruct (r <=? version e) eqn:Ele; [discriminate|].
    intros H. inversion H; subst c. unfold higher_version_wins.
    cbn [remote_version local_version]. rewrite Ele. split; reflexivity.
  - unfold detect_conflict. rewrite E. discriminate.
Qed.

Lemma detected_conflict_remote_wins_witness :
  let c := mkConflict "feature-123" "feature" 1 2 (to_dict feature_123)
             feature_123_at_2 "2024-01-01T10:00:00" "2024-01-01T12:00:00Z"
             "site-001" "site-002" in
  resolution (higher_version_wins c) = REMOTE_WINS /\
  resolved_data (higher_version_wins c) = Some feature_123_at_2.
Proof.
  apply (detected_conflict_remote_wins "feature-123" feature_123 feature_123_at_2
           "site-001" "site-002" "2024-01-01T12:00:00Z").
  reflexivity.
Defined.

(** X10. The field merge does not depend on the order in which the set
    of keys is iterated, and it invents nothing: under every key the
    merged dictionary holds the value one of the two payloads has there
    ([None] for a payload without the key). *)
Theorem merge_takes_from_a_side (self : MergeFieldsResolver) (c : Conflict)
    (order : list string) (key : string) :
  (forall k, In k order <-> In k (all_keys c)) ->
  exists merged merged',
    resolved_data (resolve self c) = Some merged /\
    resolved_data (resolve_in self c order) = Some merged' /\
    Py.lookup merged' key = Py.lookup merged key /\
    (forall v, Py.lookup merged key = Some v ->
               v = Py.get (local_data c) key \/ v = Py.get (remote_data c) key).
Proof.
  intros Horder.
  destruct (resolve_lookup self c key) as (merged & Hres & Hlook).
  destruct (resolve_in_lookup self c order key) as (merged' & Hres' & Hlook').
  exists merged, merged'. split; [exact Hres|]. split; [exact Hres'|]. split.
  - rewrite Hlook, Hlook'.
    destruct (in_dec string_dec key order) as [Hin|Hnin],
             (in_dec string_dec key (all_keys c)) as [Hin'|Hnin']; try reflexivity.
    + exfalso. now apply Hnin', Horder.
    + exfalso. now apply Hnin, Horder.
  - intros v Hv. rewrite Hlook in Hv.
    destruct (in_dec string_dec key (all_keys c)); [|discriminate].
    inversion Hv. unfold merged_value.
    repeat match goal with |- context [if ?b then _ else _] => destruct b end; auto.
Qed.

Lemma merge_takes_from_a_side_witness :
  exists merged merged',
    resolved_data (resolve scenario_resolver scenario_conflict) = Some merged /\
    resolved_data
      (resolve_in scenario_resolver scenario_conflict (rev (all_keys scenario_conflict))) =
    Some merged' /\
    Py.lookup merged' "status" = Py.lookup merged "status" /\
    (forall v, Py.lookup merged "status" = Some v ->
               v = Py.get (local_data scenario_conflict) "status" \/
               v = Py.get (remote_data scenario_conflict) "status").
Proof.
  apply (merge_takes_from_a_side scenario_resolver scenario_conflict
           (rev (all_keys scenario_conflict)) "status").
  intros k. symmetry. apply in_rev.
Defined.

Lemma list_remove_first (l : list Conflict) (c : Conflict) :
  match list_remove l c with
  | Some rest =>
      exists before x after,
        l = before ++ x :: after /\ rest = before ++ after /\
        conflict_eq x c = true /\
        forall y, In y before -> conflict_eq y c = false
  | None => forall x, In x l -> conflict_eq x c = false
  end.
Proof.
  induction l as [|x l IH]; cbn [list_remove]; [intros x []|].
  destruct (conflict_eq x c) eqn:E.
  - exists [], x, l. repeat split; [exact E | intros y []].
  - destruct (list_remove l c) as [rest|]; cbn [option_map].
    + destruct IH as (before & x0 & after & -> & -> & Hx0 & Hbefore).
      exists (x :: before), x0, after. repeat split; [exact Hx0|].
      intros y [<-|Hy]; [exact E | now apply Hbefore].
    + intros y [<-|Hy]; [exact E | now apply IH].
Qed.

(** X11. [ConflictQueue.resolve] takes the first pending conflict that
    is equal to the one given out of the pending list, which keeps its
    order otherwise, and adds one result, with the resolution and the
    data given, at the end of the resolved list. When no pending
    conflict is equal to the one given it raises ([ValueError] of
    [list.remove]) before anything is recorded. *)
Theorem queue_resolve_moves_first_equal (q : ConflictQueue) (c : Conflict)
    (r : ConflictResolution) (d : Py.pydict) :
  match queue_resolve q c r d with
  | Some (res, q') =>
      res = mkConflictResult c r (Some d) None /\
      resolved q' = resolved q ++ [res] /\
      len q' = len q - 1 /\
      exists before x after,
        pending q = before ++ x :: after /\ pending q' = before ++ after /\
        conflict_eq x c = true /\
        forall y, In y before -> conflict_eq y c = false
  | None => forall x, In x (pending q) -> conflict_eq x c = false
  end.
Proof.
  unfold queue_resolve, pending, resolved, len.
  pose proof (list_remove_first (_conflicts q) c) as H.
  destruct (list_remove (_conflicts q) c) as [rest|]; [|exact H].
  destruct H as (before & x & after & Hl & Hrest & Hx & Hbefore).
  cbn [_conflicts _resolved]. split; [reflexivity|]. split; [reflexivity|]. split.
  - rewrite Hl, Hrest, !length_app. cbn [length]. lia.
  - now exists before, x, after.
Qed.

End ConflictExtras.

(** ** syncable_repository.py: the projection of remote changes *)

Section ApplyExtras.

Import Models Repository Sync.

(** An id with a version record cannot be created: the database that
    [create] leaves is the one it was given. *)
Lemma create_taken_db (db : DB) (e : Entity) (r : VersionRow) (t1 t2 : datetime) :
  store_inv db ->
  In r (entity_versions db) -> vr_entity_id r = id e ->
  snd (Repository.create db e t1 t2) = db.
Proof.
  intros Hinv Hin Hid.
  destruct (create_db db e t1 t2) as [Hsame | (_ & Hfresh & _)]; [exact Hsame|].
  exfalso. destruct (inv_created db Hinv r Hin) as (r1 & Hin1 & Hid1 & Hv1).
  apply (Hfresh r1 Hin1). rewrite (inv_key db Hinv r1 Hin1). congruence.
Qed.

(** X12. Projection of a remote INSERT that carries the payload of an
    entity. When the change log holds a record of the id, nothing is
    written: the row is there already, or it was deleted here and the
    failure of [create] is swallowed, so the insert does not bring it
    back. When the id was never stored the row is created at version 1,
    whatever version the payload carries. *)
Theorem apply_insert (db : DB) (e : Entity) (site : string) (v : Z) (now : datetime) :
  reachable db ->
  post_init e = Ok e ->
  let c := mkChange (id e) INSERT "entities" (Some (Py.PDict (to_dict e))) site v in
  (forall r, In r (entity_versions db) -> vr_entity_id r = id e ->
     _apply_entity_change db c now = (Ok tt, db)) /\
  ((forall r, In r (entity_versions db) -> vr_entity_id r <> id e) ->
   Schema.check_type (type e) = true ->
   Schema.check_status (status e) = true ->
   exists db',
     _apply_entity_change db c now = (Ok tt, db') /\
     read db' (id e) =
     Ok (Some (mkEntity (id e) (type e) (status e) (data e) 1
                 (created_at e) (updated_at e)))).
Proof.
  intros Hreach Hv c. pose proof (reachable_inv db Hreach) as Hinv.
  unfold _apply_entity_change. cbn [table_name value change_type c as_object bind].
  rewrite from_dict_to_dict, Hv. cbn [bind negb String.eqb Ascii.eqb Bool.eqb].
  rewrite (read_lookup db (id e) Hinv). split.
  - intros r Hin Hid. destruct (entities db !! id e); cbn [bind]; [reflexivity|].
    unfold swallow. now rewrite (create_taken_db db e r now now Hinv Hin Hid).
  - intros Hnever Ht Hs.
    pose proof (never_stored_absent db (id e) Hinv Hnever) as Habs.
    rewrite Habs. cbn [bind].
    pose proof (create_success db e now now Hv Ht Hs (post_init_check_id e Hv) Habs
                  (never_stored_key_fresh db (id e) Hinv Hnever)) as Hc.
    pose proof (create_returns _ _ _ _ _ _ Hv Hc) as (_ & _ & Hread).
    eexists. unfold swallow. rewrite Hc. split; [reflexivity | exact Hread].
Qed.

Lemma apply_insert_witness :
  _apply_entity_change db_a
    (mkChange "feature-a" INSERT "entities" (Some (Py.PDict (to_dict feature_a)))
       "site-002" 1) "2024-01-06T00:00:00" = (Ok tt, db_a) /\
  exists db',
    _apply_entity_change db_a
      (mkChange "feature-b" INSERT "entities" (Some (Py.PDict (to_dict feature_b)))
         "site-002" 1) "2024-01-06T00:00:00" = (Ok tt, db') /\
    read db' "feature-b" = Ok (Some feature_b).
Proof.
  split.
  - apply (proj1 (apply_insert db_a feature_a "site-002" 1 "2024-01-06T00:00:00"
                    reachable_db_a eq_refl)
             (create_record feature_a "2024-01-01T10:00:00"));
      [left; reflexivity | reflexivity].
  - apply (proj2 (apply_insert db_a feature_b "site-002" 1 "2024-01-06T00:00:00"
                    reachable_db_a eq_refl));
      [|reflexivity|reflexivity].
    intros r Hin. vm_compute in Hin. destruct Hin as [<-|[]]. discriminate.
Defined.



(** X14. Projection of a remote DELETE: the row named by the payload's
    ["id"] is deleted and the deletion logged under the next version of
    the local row; an id that is not stored is passed over without
    error. *)
Theorem apply_delete (db : DB) (payload : Py.pydict) (k site : string) (v : Z)
    (now : datetime) :
  reachable db ->
  Py.lookup payload "id" = Some (Py.PStr k) ->
  let c := mkChange k DELETE "entities" (Some (Py.PDict payload)) site v in
  (entities db !! k = None -> _apply_entity_change db c now = (Ok tt, db)) /\
  (forall row, entities db !! k = Some row ->
     exists db',
       _apply_entity_change db c now = (Ok tt, db') /\
       read db' k = Ok None /\
       entity_versions db' = entity_versions db ++ [delete_record k row now]).
Proof.
  intros Hreach Hid c. pose proof (reachable_inv db Hreach) as Hinv.
  unfold _apply_entity_change, Py.get_default.
  cbn [table_name value change_type c as_object bind negb String.eqb Ascii.eqb Bool.eqb].
  rewrite Hid. split.
  - intros Habs. now rewrite delete_absent.
  - intros row Hrow. rewrite (delete_present db k row now Hinv Hrow).
    pose proof (store_inv_delete db k now Hinv) as Hinv'.
    rewrite (delete_present db k row now Hinv Hrow) in Hinv'. cbn [snd] in Hinv'.
    eexists. split; [reflexivity|]. split; [|reflexivity].
    rewrite (read_lookup _ _ Hinv'). cbn [entities]. now rewrite lookup_delete_eq.
Qed.

Lemma apply_delete_witness :
  exists db',
    _apply_entity_change db_a
      (mkChange "feature-a" DELETE "entities" (Some (Py.PDict (to_dict feature_a)))
         "site-002" 2) "2024-01-06T00:00:00" = (Ok tt, db') /\
    read db' "feature-a" = Ok None /\
    entity_versions db' =
    entity_versions db_a ++
    [delete_record "feature-a" (created_row feature_a) "2024-01-06T00:00:00"].
Proof.
  apply (proj2 (apply_delete db_a (to_dict feature_a) "feature-a" "site-002" 2
                  "2024-01-06T00:00:00" reachable_db_a eq_refl)
           (created_row feature_a)).
  reflexivity.
Defined.

End ApplyExtras.

(** ** repository.py: list *)

Section ListExtras.

Import Models Repository.

#[local] Instance updated_ge_total : Total updated_ge.
Proof. intros a b. unfold updated_ge. apply String.leb_total. Qed.











End ListExtras.

(** ** observer.py: the event log *)

Section ObserverExtras.

Import Models Observer.







Lemma change_type_eqb_eq (a b : ChangeType) : change_type_eqb a b = true <-> a = b.
Proof. destruct a, b; cbn; split; congruence. Qed.

Lemma recent_events_filter (self : EntityObserver) (entity_type : option string)
    (kind : option ChangeType) (limit : Z) :
  get_recent_events self entity_type kind limit =
  Py.slice_to limit (rev (List.filter (event_passes entity_type kind) (_event_log self))).
Proof.
  unfold get_recent_events, event_passes, Repository.matches_filter.
  do 2 f_equal.
  destruct (Repository.given entity_type) as [t|], kind as [k|].
  - induction (_event_log self) as [|ev l IH]; [reflexivity|]. cbn.
    destruct (String.eqb _ t); cbn; [destruct (change_type_eqb _ k)|]; now rewrite IH.
  - induction (_event_log self) as [|ev l IH]; [reflexivity|]. cbn.
    destruct (String.eqb _ t); cbn; now rewrite IH.
  - induction (_event_log self) as [|ev l IH]; [reflexivity|]. cbn.
    destruct (change_type_eqb _ k); cbn; now rewrite IH.
  - induction (_event_log self) as [|ev l IH]; [reflexivity|]. cbn. now f_equal.
Qed.

Lemma sublist_rev {A : Type} (l1 l2 : list A) :
  sublist l1 l2 -> sublist (rev l1) (rev l2).
Proof.
  induction 1 as [|x l1 l2 _ IH|x l1 l2 _ IH]; cbn.
  - constructor.
  - now apply sublist_app.
  - now apply sublist_inserts_r.
Qed.

Lemma sublist_List_filter {A : Type} (f : A -> bool) (l : list A) :
  sublist (List.filter f l) l.
Proof.
  induction l as [|x l IH]; cbn; [constructor|].
  destruct (f x); now constructor.
Qed.

Lemma slice_to_sublist {A : Type} (n : Z) (l : list A) : sublist (Py.slice_to n l) l.
Proof. unfold Py.slice_to. destruct (n <? 0); apply sublist_take. Qed.

Lemma slice_to_length {A : Type} (n : Z) (l : list A) :
  0 <= n -> Z.of_nat (length (Py.slice_to n l)) = Z.min n (Z.of_nat (length l)).
Proof.
  intros Hn. unfold Py.slice_to. destruct (n <? 0) eqn:E; [apply Z.ltb_lt in E; lia|].
  rewrite length_take. lia.
Qed.

(** X17. [get_recent_events] returns events of the log, latest first,
    only those that pass the filters given (an empty type name counts
    as no filter), and for [limit >= 0] the first [limit] of them, all
    of them when there are no more than [limit]. *)
Theorem recent_events_latest_first (self : EntityObserver) (entity_type : option string)
    (kind : option ChangeType) (limit : Z) :
  let events := get_recent_events self entity_type kind limit in
  sublist events (rev (_event_log self)) /\
  (forall ev, In ev events ->
     (forall t, entity_type = Some t -> t <> "" -> Observer.entity_type ev = t) /\
     (forall k, kind = Some k -> change_type ev = k)) /\
  (0 <= limit ->
   Z.of_nat (length events) =
   Z.min limit
     (Z.of_nat (length (List.filter (event_passes entity_type kind) (_event_log self))))).
Proof.
  cbn zeta. rewrite recent_events_filter. split; [|split].
  - etransitivity; [apply slice_to_sublist|].
    apply sublist_rev, sublist_List_filter.
  - intros ev Hin. apply list_elem_of_In in Hin.
    eapply elem_of_sublist in Hin; [|apply slice_to_sublist].
    apply list_elem_of_In, in_rev, filter_In in Hin as [_ Hp].
    unfold event_passes in Hp. apply andb_true_iff in Hp as [Ht Hk]. split.
    + intros t -> Hne. unfold Repository.matches_filter, Repository.given in Ht.
      destruct t; [contradiction|]. now apply String.eqb_eq in Ht.
    + intros k ->. now apply change_type_eqb_eq.
  - intros Hl. rewrite slice_to_length by exact Hl. now rewrite length_rev.
Qed.



End ObserverExtras.

(** ** factory.py: slugs *)

Section SlugFacts.

Ltac by_cases c :=
  destruct c as [[] [] [] [] [] [] [] []]; vm_compute; intros; congruence.

Lemma alnum_not_hyphen (c : ascii) : is_alnum c = true -> Text.is_hyphen c = false.
Proof. by_cases c. Qed.

Lemma slug_char_split (c : ascii) :
  Text.is_slug_char c = is_alnum c || Text.is_hyphen c.
Proof. reflexivity. Qed.

Lemma space_not_alnum (c : ascii) :
  Text.is_py_space c || Ascii.eqb c "_" = true -> is_alnum c = false.
Proof. by_cases c. Qed.

Lemma slug_char_not_colon (c : ascii) :
  Text.is_slug_char c = true -> Ascii.eqb c ":" = false.
Proof. by_cases c. Qed.

Lemma any_char_lower (p : ascii -> bool) (s : string) :
  any_char p (Text.lower s) = any_char (fun c => p (Text.ascii_lower c)) s.
Proof. induction s as [|c s IH]; [reflexivity|]. cbn. now rewrite IH. Qed.

Lemma any_char_sub_runs (p cls : ascii -> bool) (r : bool) (s : string) :
  p "-"%char = false -> (forall c, cls c = true -> p c = false) ->
  any_char p (Text.sub_runs cls r s) = any_char p s.
Proof.
  intros Hh Hc. revert r. induction s as [|c s IH]; intros r; [reflexivity|].
  cbn. destruct (cls c) eqn:E.
  - rewrite (Hc c E). destruct r; cbn; [|rewrite Hh]; apply IH.
  - cbn. now rewrite IH.
Qed.

Lemma any_char_keep (p cls : ascii -> bool) (s : string) :
  (forall c, p c = true -> cls c = true) ->
  any_char p (Text.keep cls s) = any_char p s.
Proof.
  intros Hc. induction s as [|c s IH]; [reflexivity|]. cbn.
  destruct (cls c) eqn:E; cbn; rewrite IH; [reflexivity|].
  destruct (p c) eqn:Ep; [|reflexivity]. apply Hc in Ep. congruence.
Qed.

Lemma all_chars_keep (cls : ascii -> bool) (s : string) :
  all_chars cls (Text.keep cls s) = true.
Proof.
  induction s as [|c s IH]; [reflexivity|]. cbn.
  destruct (cls c) eqn:E; cbn; [now rewrite E|exact IH].
Qed.

Lemma all_chars_sub_runs (p cls : ascii -> bool) (r : bool) (s : string) :
  p "-"%char = true -> all_chars p s = true ->
  all_chars p (Text.sub_runs cls r s) = true.
Proof.
  intros Hh. revert r. induction s as [|c s IH]; intros r Hs; [reflexivity|].
  cbn in Hs. apply andb_true_iff in Hs as [Hc Hs]. cbn.
  destruct (cls c); [destruct r|]; cbn; rewrite ?Hh, ?Hc; now apply IH.
Qed.

Lemma all_chars_lstrip (p : ascii -> bool) (s : string) :
  all_chars p s = true -> all_chars p (Text.lstrip_hyphen s) = true.
Proof.
  induction s as [|c s IH]; intros Hs; [reflexivity|]. cbn.
  destruct (Text.is_hyphen c); [|exact Hs].
  cbn in Hs. apply andb_true_iff in Hs as [_ Hs]. now apply IH.
Qed.

Lemma all_chars_rstrip (p : ascii -> bool) (s : string) :
  all_chars p s = true -> all_chars p (Text.rstrip_hyphen s) = true.
Proof.
  induction s as [|c s IH]; intros Hs; [reflexivity|].
  cbn in Hs. apply andb_true_iff in Hs as [Hc Hs]. cbn.
  specialize (IH Hs). destruct (Text.rstrip_hyphen s) as [|d r].
  - destruct (Text.is_hyphen c); cbn; [reflexivity|]. now rewrite Hc.
  - cbn in *. now rewrite Hc.
Qed.

Lemma all_chars_take (p : ascii -> bool) (n : nat) (s : string) :
  all_chars p s = true -> all_chars p (Text.take_chars n s) = true.
Proof.
  revert s. induction n as [|n IH]; intros [|c s] Hs; try reflexivity.
  cbn in *. apply andb_true_iff in Hs as [Hc Hs]. rewrite Hc. now apply IH.
Qed.

Lemma length_take_chars (n : nat) (s : string) :
  (String.length (Text.take_chars n s) <= n)%nat.
Proof.
  revert s. induction n as [|n IH]; intros [|c s]; cbn; try lia.
  specialize (IH s). lia.
Qed.

Lemma single_hyphens_cons (a : ascii) (s : string) :
  single_hyphens (String a s) =
  negb (Text.is_hyphen a && negb (first_not_hyphen s)) && single_hyphens s.
Proof.
  destruct s as [|b s]; cbn [single_hyphens first_not_hyphen].
  - now rewrite andb_false_r.
  - now rewrite negb_involutive.
Qed.

Lemma collapse_single (r : bool) (s : string) :
  single_hyphens (Text.sub_runs Text.is_hyphen r s) = true /\
  (r = true -> first_not_hyphen (Text.sub_runs Text.is_hyphen r s) = true).
Proof.
  revert r. induction s as [|c s IH]; intros r; [split; reflexivity|].
  cbn [Text.sub_runs]. destruct (Text.is_hyphen c) eqn:E.
  - destruct r.
    + apply IH.
    + destruct (IH true) as [H1 H2]. split; [|discriminate].
      rewrite single_hyphens_cons, H1, (H2 eq_refl). reflexivity.
  - destruct (IH false) as [H1 _]. split.
    + rewrite single_hyphens_cons, E, H1. reflexivity.
    + intros _. cbn. now rewrite E.
Qed.

Lemma single_hyphens_tail (a : ascii) (s : string) :
  single_hyphens (String a s) = true -> single_hyphens s = true.
Proof. rewrite single_hyphens_cons. intros H. now apply andb_true_iff in H. Qed.

Lemma single_hyphens_lstrip (s : string) :
  single_hyphens s = true -> single_hyphens (Text.lstrip_hyphen s) = true.
Proof.
  induction s as [|c s IH]; intros Hs; [reflexivity|]. cbn [Text.lstrip_hyphen].
  destruct (Text.is_hyphen c); [|exact Hs]. apply IH. now apply single_hyphens_tail in Hs.
Qed.

Lemma first_rstrip (s : string) :
  first_not_hyphen s = true -> first_not_hyphen (Text.rstrip_hyphen s) = true.
Proof.
  destruct s as [|c s]; [reflexivity|].
  cbn [Text.rstrip_hyphen first_not_hyphen]. intros Hc.
  destruct (Text.rstrip_hyphen s); [|exact Hc].
  destruct (Text.is_hyphen c) eqn:E; [reflexivity|]. cbn. now rewrite E.
Qed.

Lemma single_hyphens_rstrip (s : string) :
  single_hyphens s = true -> single_hyphens (Text.rstrip_hyphen s) = true.
Proof.
  induction s as [|c s IH]; intros Hs; [reflexivity|].
  rewrite single_hyphens_cons in Hs. apply andb_true_iff in Hs as [Hc Hs].
  specialize (IH Hs). cbn [Text.rstrip_hyphen].
  destruct (Text.rstrip_hyphen s) as [|d r] eqn:Er.
  - destruct (Text.is_hyphen c); reflexivity.
  - rewrite single_hyphens_cons, IH, andb_true_r.
    destruct (Text.is_hyphen c); [|reflexivity].
    destruct (first_not_hyphen s) eqn:Ef; [|discriminate Hc].
    apply first_rstrip in Ef. rewrite Er in Ef. now rewrite Ef.
Qed.

Lemma first_take (n : nat) (s : string) :
  first_not_hyphen s = true -> first_not_hyphen (Text.take_chars n s) = true.
Proof. destruct n, s; cbn; auto. Qed.

Lemma single_hyphens_take (n : nat) (s : string) :
  single_hyphens s = true -> single_hyphens (Text.take_chars n s) = true.
Proof.
  revert s. induction n as [|n IH]; intros [|c s] Hs; try reflexivity.
  rewrite single_hyphens_cons in Hs. apply andb_true_iff in Hs as [Hc Hs].
  cbn [Text.take_chars]. rewrite single_hyphens_cons, (IH s Hs), andb_true_r.
  destruct (Text.is_hyphen c); [|reflexivity].
  destruct (first_not_hyphen s) eqn:Ef; [|discriminate Hc].
  now rewrite (first_take n s Ef).
Qed.

Lemma first_lstrip (s : string) : first_not_hyphen (Text.lstrip_hyphen s) = true.
Proof.
  induction s as [|c s IH]; [reflexivity|]. cbn.
  destruct (Text.is_hyphen c) eqn:E; [exact IH|]. cbn. now rewrite E.
Qed.

Lemma single_hyphens_no_pair (s a b : string) :
  single_hyphens s = true -> s <> a +:+ "--" +:+ b.
Proof.
  revert s. induction a as [|x a IH]; intros s Hs Heq; subst s.
  - change (single_hyphens (String "-" (String "-" b)) = true) in Hs. cbn in Hs. discriminate.
  - change (single_hyphens (String x (a +:+ "--" +:+ b)) = true) in Hs.
    apply single_hyphens_tail in Hs. now apply (IH _ Hs).
Qed.

Lemma first_startswith (s : string) :
  first_not_hyphen s = true -> Text.startswith s "-" = false.
Proof.
  destruct s as [|c s]; [reflexivity|]. by_cases c.
Qed.

Lemma any_not_hyphen_lstrip (s : string) :
  any_char (fun c => negb (Text.is_hyphen c)) (Text.lstrip_hyphen s) =
  any_char (fun c => negb (Text.is_hyphen c)) s.
Proof.
  induction s as [|c s IH]; [reflexivity|]. cbn.
  destruct (Text.is_hyphen c) eqn:E; cbn; [exact IH | now rewrite E].
Qed.

Lemma rstrip_empty (s : string) :
  Models.is_empty (Text.rstrip_hyphen s) =
  negb (any_char (fun c => negb (Text.is_hyphen c)) s).
Proof.
  induction s as [|c s IH]; [reflexivity|]. cbn.
  destruct (Text.rstrip_hyphen s); cbn in *.
  - destruct (Text.is_hyphen c); cbn; [exact IH | reflexivity].
  - destruct (any_char _ s); [|discriminate]. now rewrite orb_true_r.
Qed.

Lemma take_empty (n : nat) (s : string) :
  Models.is_empty (Text.take_chars (S n) s) = Models.is_empty s.
Proof. now destruct s. Qed.

Lemma any_not_hyphen_alnum (s : string) :
  all_chars Text.is_slug_char s = true ->
  any_char (fun c => negb (Text.is_hyphen c)) s = any_char is_alnum s.
Proof.
  induction s as [|c s IH]; intros Hs; [reflexivity|].
  cbn in Hs. apply andb_true_iff in Hs as [Hc Hs]. cbn. rewrite (IH Hs). f_equal.
  rewrite slug_char_split in Hc.
  destruct (is_alnum c) eqn:Ea; [now rewrite (alnum_not_hyphen c Ea)|].
  cbn in Hc. now rewrite Hc.
Qed.

Lemma all_slug_colon_free (s : string) :
  all_chars Text.is_slug_char s = true -> colon_free s.
Proof.
  unfold colon_free. induction s as [|c s IH]; intros Hs; [reflexivity|].
  cbn in Hs. apply andb_true_iff in Hs as [Hc Hs]. cbn.
  rewrite (slug_char_not_colon c Hc), (IH Hs). reflexivity.
Qed.

(** The steps of [_slugify] up to the truncation. *)
Lemma slugify_steps (title : string) :
  let collapsed :=
    Text.sub_runs Text.is_hyphen false
      (Text.keep Text.is_slug_char
         (Text.sub_runs (fun c => Text.is_py_space c || Ascii.eqb c "_") false
            (Text.lower title))) in
  let slug := Text.take_chars 50 (Text.strip_hyphen collapsed) in
  Models.is_empty slug = negb (any_char is_letter_or_digit title) /\
  (String.length slug <= 50)%nat /\
  all_chars Text.is_slug_char slug = true /\
  first_not_hyphen slug = true /\
  single_hyphens slug = true.
Proof.
  cbn zeta.
  set (spaced := Text.sub_runs _ false (Text.lower title)).
  set (kept := Text.keep Text.is_slug_char spaced).
  set (collapsed := Text.sub_runs Text.is_hyphen false kept).
  assert (Hkept : all_chars Text.is_slug_char kept = true) by apply all_chars_keep.
  assert (Hcoll : all_chars Text.is_slug_char collapsed = true)
    by (apply all_chars_sub_runs; [reflexivity | exact Hkept]).
  split; [|split; [|split; [|split]]].
  - rewrite take_empty. unfold Text.strip_hyphen.
    rewrite rstrip_empty, any_not_hyphen_lstrip. f_equal.
    rewrite (any_not_hyphen_alnum collapsed Hcoll).
    unfold collapsed. rewrite any_char_sub_runs;
      [|reflexivity | intros c Hc; destruct (is_alnum c) eqn:Ea; [|reflexivity];
                      apply alnum_not_hyphen in Ea; congruence].
    unfold kept. rewrite any_char_keep;
      [|intros c Hc; rewrite slug_char_split, Hc; reflexivity].
    unfold spaced. rewrite any_char_sub_runs; [|reflexivity | apply space_not_alnum].
    apply any_char_lower.
  - apply length_take_chars.
  - apply all_chars_take, all_chars_rstrip, all_chars_lstrip, Hcoll.
  - apply first_take, first_rstrip, first_lstrip.
  - apply single_hyphens_take, single_hyphens_rstrip, single_hyphens_lstrip.
    apply (collapse_single false kept).
Qed.

(** X19. [_slugify] returns exactly for the titles that have an ASCII letter
    or digit, and raises [ValidationError] for the others. The slug is
    not empty, is at most 50 characters long, is made of [a-z], [0-9]
    and ['-'] only, does not begin with ['-'] and has no two ['-'] in a
    row. *)
Theorem slugify_result (title : string) :
  match Factory._slugify title with
  | Ok slug =>
      any_char is_letter_or_digit title = true /\
      slug <> "" /\
      (String.length slug <= 50)%nat /\
      all_chars Text.is_slug_char slug = true /\
      Text.startswith slug "-" = false /\
      (forall a b, slug <> a +:+ "--" +:+ b)
  | Raise e =>
      any_char is_letter_or_digit title = false /\
      e = ValidationError (empty_slug_message title)
  end.
Proof.
  destruct (slugify_steps title) as (Hempty & Hlen & Hall & Hfirst & Hsingle).
  unfold Factory._slugify.
  destruct (Models.is_empty _) eqn:E.
  - split; [|reflexivity]. symmetry in Hempty. now apply negb_true_iff in Hempty.
  - split; [symmetry in Hempty; now apply negb_false_iff in Hempty|].
    split; [intros Heq; rewrite Heq in E; discriminate|].
    split; [exact Hlen|]. split; [exact Hall|].
    split; [now apply first_startswith|].
    intros a b. now apply single_hyphens_no_pair.
Qed.

End SlugFacts.

(** ** factory.py: create and delete *)

Section FactoryExtras.

Import Models Repository Factory.








Lemma create_raise_db (db db' : DB) (e : Entity) (t1 t2 : datetime) (err : exn) :
  post_init e = Ok e -> Repository.create db e t1 t2 = (Raise err, db') -> db' = db.
Proof.
  intros Hv Hc. unfold Repository.create in Hc.
  destruct (bind (insert_entity db _) _) as [db2|err']; [|now inversion Hc].
  exfalso. destruct (copy_total e (mkChanges None None None None (Some 1) None None) t2 Hv
                       eq_refl eq_refl eq_refl) as [e' He'].
  rewrite He' in Hc. discriminate.
Qed.

Lemma factory_eta (self : EntityFactory) :
  mkEntityFactory (schema self) (repository self) (observer self) = self.
Proof. now destruct self. Qed.

(** X21. A [create] that raises has written nothing: the repository and the
    observer are as they were and nothing was printed. *)
Theorem factory_create_failure_writes_nothing (self self' : EntityFactory)
    (entity_type title : string) (status : option string) (kwargs : Py.pydict)
    (now now_log now_copy now_emit : datetime) (err : exception) (printed : list string) :
  create self entity_type title status kwargs now now_log now_copy now_emit =
  (Failed err, self', printed) ->
  self' = self /\ printed = [].
Proof.
  unfold create. destruct (Py.lookup (schema self) entity_type) as [ts|];
    [|intros H; inversion H; split; reflexivity].
  cbv zeta.
  match goal with |- context [match ?p with Ok _ => _ | Raise _ => _ end] =>
    destruct p as [entity|e] eqn:Hprep end;
    [|intros H; inversion H; split; reflexivity].
  assert (Hv : post_init entity = Ok entity).
  { destruct (_slugify title) as [slug|]; [|discriminate]. cbn [bind] in Hprep.
    destruct (Repository.read _ _) as [[row|]|]; try discriminate. cbn [bind] in Hprep.
    destruct (determine_status _ _ _) as [st|]; [|discriminate]. cbn [bind] in Hprep.
    destruct (first_missing _ _); [discriminate|].
    unfold Entity_init in Hprep. pose proof (post_init_ok _ _ Hprep). now subst entity. }
  destruct (Repository.create (repository self) entity now_log now_copy)
    as [[created|e] db] eqn:Hc.
  - destruct (Observer.emit _ _ _ _ _) as [[ev obs] pr]. discriminate.
  - apply (create_raise_db _ _ _ _ _ _ Hv) in Hc. subst db.
    intros H. inversion H. split; [apply factory_eta | reflexivity].
Qed.



End FactoryExtras.

Section FactoryInstances.

Import Models Repository Factory.

Lemma slugify_chars (title slug : string) :
  _slugify title = Ok slug -> all_chars Text.is_slug_char slug = true.
Proof.
  intros H. destruct (slugify_steps title) as (_ & _ & Hall & _).
  unfold _slugify in H. destruct (is_empty _); [discriminate|].
  inversion H. subst slug. exact Hall.
Qed.

Lemma colon_free_app (a b : string) :
  colon_free a -> colon_free b -> colon_free (a +:+ b).
Proof.
  unfold colon_free. intros Ha Hb. induction a as [|c a IH]; [exact Hb|].
  change (Text.instr (String c (a +:+ b)) ":" = 0%nat).
  cbn [Text.instr] in Ha |- *. destruct (Ascii.eqb c ":"); [discriminate|].
  destruct (Text.instr a ":"); [|discriminate]. now rewrite IH.
Qed.

Lemma check_type_colon_free (t : string) : Schema.check_type t = true -> colon_free t.
Proof.
  unfold Schema.check_type, Schema.sql_in, Schema.VALID_TYPES. cbn [existsb]. intros H.
  repeat (apply orb_prop in H as [H|H];
          [apply String.eqb_eq in H; subst t; reflexivity|]).
  discriminate.
Qed.

(** X24. The deletion of an entity whose id the factory made is always
    seen by [get_changes_since]: a type of the table followed by a slug
    has no [':'], so the key of the delete record is read back as its
    version number. *)
Theorem factory_ids_delete_tracked (db : DB) (entity_type title slug : string)
    (row : Entity) (now now' : datetime) :
  reachable db ->
  Schema.check_type entity_type = true ->
  _slugify title = Ok slug ->
  entities db !! (entity_type +:+ "-" +:+ slug) = Some row ->
  colon_free (entity_type +:+ "-" +:+ slug) /\
  exists db' results,
    Repository.delete db (entity_type +:+ "-" +:+ slug) now = (Ok true, db') /\
    get_changes_since db' 0 now' = Ok results /\
    In (row, Delete) results.
Proof.
  intros Hreach Ht Hslug Hrow.
  assert (Hc : colon_free (entity_type +:+ "-" +:+ slug)).
  { apply colon_free_app; [now apply check_type_colon_free|].
    apply (colon_free_app "-" slug); [reflexivity|].
    apply all_slug_colon_free. now apply (slugify_chars title). }
  split; [exact Hc|].
  destruct (delete_tracked db _ row now now' Hreach Hrow Hc)
    as (db' & results & Hdel & _ & _ & Hres & Hin).
  now exists db', results.
Qed.

Lemma factory_ids_delete_tracked_witness :
  colon_free "feature-a" /\
  exists db' results,
    Repository.delete db_a "feature-a" "2024-01-03T00:00:00" = (Ok true, db') /\
    get_changes_since db' 0 "2024-01-04T00:00:00" = Ok results /\
    In (created_row feature_a, Delete) results.
Proof.
  apply (factory_ids_delete_tracked db_a "feature" "A" "a" (created_row feature_a)
           "2024-01-03T00:00:00" "2024-01-04T00:00:00" reachable_db_a);
    reflexivity.
Defined.


Lemma factory_create_failure_writes_nothing_witness :
  snd (fst (create factory_a "feature" "A" None []
              "2024-03-01T10:00:00" "2024-03-01T10:00:01" "2024-03-01T10:00:02"
              "2024-03-01T10:00:03")) = factory_a /\
  snd (create factory_a "feature" "A" None []
         "2024-03-01T10:00:00" "2024-03-01T10:00:01" "2024-03-01T10:00:02"
         "2024-03-01T10:00:03") = [].
Proof.
  apply (factory_create_failure_writes_nothing factory_a _ "feature" "A" None []
           "2024-03-01T10:00:00" "2024-03-01T10:00:01" "2024-03-01T10:00:02"
           "2024-03-01T10:00:03"
           (Raised (ValidationError "Entity 'feature-a' already exists"))).
  reflexivity.
Defined.



End FactoryInstances.
